(** * The service worker of pizzaria-miragem-2 ([sw.js])

    A shallow embedding of the request-caching engine of [sw.js]: the three
    strategy executors ([cacheFirst], [networkFirst], [staleWhileRevalidate]),
    the routing done by the [fetch] listener, and the [install] and
    [activate] listeners.

    The worker is event driven and every handler is a chain of awaited
    promises, so a handler is embedded as a function from the state of the
    world to a settled promise and a new state (a state and exception monad).
    The browser primitives the handlers call ([fetch], [caches.open],
    [caches.match], [cache.put], [cache.addAll], [caches.keys],
    [caches.delete]) are not code of the repository: they are embedded after
    the Fetch and Service Worker standards, with the outcomes that the code
    cannot control (does the network answer, does the storage accept the
    operation) read from an environment. *)

From stdpp Require Import base strings list gmap.
From Stdlib Require Import ZArith Lia.

Local Open Scope Z_scope.

(** ** Strings: [String.prototype.startsWith] and [String.prototype.includes] *)

Module JsString.

(** [startsWith s pat] is [s.startsWith(pat)]. *)
Fixpoint startsWith (s pat : string) {struct pat} : bool :=
  match pat with
  | EmptyString => true
  | String a pat' =>
      match s with
      | EmptyString => false
      | String b s' => if Ascii.eqb a b then startsWith s' pat' else false
      end
  end.

(** [includes s pat] is [s.includes(pat)]: [pat] occurs at some position. *)
Fixpoint includes (s pat : string) : bool :=
  startsWith s pat ||
  match s with
  | EmptyString => false
  | String _ s' => includes s' pat
  end.

(** The propositional reading of containment. *)
Definition contains (s pat : string) : Prop :=
  exists pre post : string, s = pre +:+ pat +:+ post.

End JsString.

(** ** Data *)

(** A response, as far as the worker looks at it or builds it: the status,
    the status text, the headers given to the constructor and the body. *)
Record Response := mkResponse {
  status : Z;
  statusText : string;
  headers : list (string * string);
  body : string
}.

#[global] Instance Response_eq_dec : EqDecision Response.
Proof. solve_decision. Defined.

(** A request: the three fields the worker reads. *)
Record Request := mkRequest {
  method : string;
  url : string;
  destination : string
}.

(** What a handler hands to [event.respondWith]: a response, or one of the
    two non-response values the code can produce, [undefined] (a cache miss
    of [caches.match]) and [null]. *)
Inductive Value :=
| VResponse (r : Response)
| VUndefined
| VNull.

Definition is_response (v : Value) : bool :=
  match v with VResponse _ => true | _ => false end.

(** A settled promise. *)
Inductive Settled (A : Type) :=
| Fulfilled (a : A)
| Rejected (reason : string).
Arguments Fulfilled {A} a.
Arguments Rejected {A} reason.

(** What the worker does to the outside, in order. *)
Inductive Event :=
| EvLog (msg : string)             (* console.log *)
| EvError (msg : string)           (* console.error *)
| EvFetch (key : string)           (* fetch(request) is issued *)
| EvOpen (name : string)           (* caches.open(name) *)
| EvMatch (key : string)           (* caches.match(request) *)
| EvPut (name key : string)        (* cache.put(request, response) *)
| EvAddAll (name : string)         (* cache.addAll(urls) *)
| EvKeys                           (* caches.keys() *)
| EvDelete (name : string)         (* caches.delete(name) *)
| EvSkipWaiting                    (* self.skipWaiting() *)
| EvClaim.                         (* self.clients.claim() *)

#[global] Instance Event_eq_dec : EqDecision Event.
Proof. solve_decision. Defined.

(** The cache storage: the namespaces in the order of their creation (the
    order in which [caches.match] searches them), each a map from request
    URL to response. *)
Record World := mkWorld {
  storage : list (string * gmap string Response);
  trace : list Event
}.

(** What the code cannot control. [net u = None] is a rejected fetch. The
    three storage operations that the request path uses can be refused. *)
Record Env := mkEnv {
  origin : string;
  net : string -> option Response;
  open_ok : string -> bool;
  match_ok : string -> bool;
  put_ok : string -> string -> Response -> bool
}.

(** ** Constants of [sw.js] *)

Definition STATIC_CACHE : string := "static-v1.2".
Definition DYNAMIC_CACHE : string := "dynamic-v1.2".

Definition STATIC_ASSETS : list string :=
  [ "/";
    "/index.html";
    "/styles.css";
    "/content.html";
    "https://fonts.googleapis.com/css2?family=Poppins:wght@400;500;600;700&family=Playfair+Display:wght@700&display=swap";
    "https://cdnjs.cloudflare.com/ajax/libs/font-awesome/6.4.0/js/all.min.js" ].

Definition NETWORK_FIRST : list string :=
  [ "/api/"; "/contact"; "https://www.google.com/maps/" ].

Definition STALE_WHILE_REVALIDATE : list string :=
  [ "https://fonts.googleapis.com/";
    "https://fonts.gstatic.com/";
    "https://cdnjs.cloudflare.com/" ].

(** [new Response('Offline', {status: 503, statusText: 'Service Unavailable',
    headers: {'Content-Type': 'text/plain'}})], in [cacheFirst] and
    [networkFirst]. *)
Definition offline_response : Response :=
  mkResponse 503 "Service Unavailable" [("Content-Type", "text/plain")] "Offline".

(** [new Response('Offline', { status: 503 })], in [staleWhileRevalidate]. *)
Definition offline_response_swr : Response :=
  mkResponse 503 "" [] "Offline".

(** ** The monad of handlers *)

Definition M (A : Type) : Type := World -> Settled A * World.

Definition ret {A} (a : A) : M A := fun w => (Fulfilled a, w).

Definition bind {A B} (m : M A) (k : A -> M B) : M B :=
  fun w =>
    match m w with
    | (Fulfilled a, w') => k a w'
    | (Rejected e, w') => (Rejected e, w')
    end.

Definition throw {A} (e : string) : M A := fun w => (Rejected e, w).

(** [try { body } catch (error) { handler }]: what [body] did to the world
    before it threw stays done. *)
Definition try_catch {A} (body : M A) (handler : string -> M A) : M A :=
  fun w =>
    match body w with
    | (Fulfilled a, w') => (Fulfilled a, w')
    | (Rejected e, w') => handler e w'
    end.

Definition emit (e : Event) : M unit :=
  fun w => (Fulfilled tt, mkWorld (storage w) (trace w ++ [e])).

Declare Scope js_scope.
Delimit Scope js_scope with js.
Notation "'let*' x ':=' m 'in' k" := (bind m (fun x => k))
  (at level 10, x name, m at level 100, k at level 200) : js_scope.
Notation "m ';;' k" := (bind m (fun _ => k))
  (at level 100, k at level 200, right associativity) : js_scope.
Local Open Scope js_scope.

Definition when (b : bool) (m : M unit) : M unit := if b then m else ret tt.

(** ** The browser primitives *)

Module Platform.

(** A URL given relative to the worker ([/index.html]) is resolved against
    its origin; the other URLs of [sw.js] are absolute. *)
Definition resolve (env : Env) (u : string) : string :=
  if JsString.startsWith u "/" then origin env +:+ u else u.

(** [caches.match] over all namespaces: the first one, in creation order,
    that holds the key answers. *)
Fixpoint lookup_all (cs : list (string * gmap string Response)) (k : string)
  : option Response :=
  match cs with
  | [] => None
  | (_, c) :: cs' =>
      match c !! k with
      | Some r => Some r
      | None => lookup_all cs' k
      end
  end.

(** The entries of one namespace. *)
Fixpoint lookup_in (cs : list (string * gmap string Response)) (name k : string)
  : option Response :=
  match cs with
  | [] => None
  | (n, c) :: cs' =>
      if decide (n = name) then c !! k else lookup_in cs' name k
  end.

(** [caches.open] creates the namespace when it is absent, last in order. *)
Fixpoint ensure (name : string) (cs : list (string * gmap string Response))
  : list (string * gmap string Response) :=
  match cs with
  | [] => [(name, ∅)]
  | (n, c) :: cs' =>
      if decide (n = name) then (n, c) :: cs' else (n, c) :: ensure name cs'
  end.

(** [cache.put] overwrites the entry of the key in its namespace. *)
Fixpoint put_in (name k : string) (r : Response)
    (cs : list (string * gmap string Response))
  : list (string * gmap string Response) :=
  match cs with
  | [] => [(name, {[ k := r ]})]
  | (n, c) :: cs' =>
      if decide (n = name) then (n, <[ k := r ]> c) :: cs'
      else (n, c) :: put_in name k r cs'
  end.

Definition set_storage (f : list (string * gmap string Response) ->
                            list (string * gmap string Response)) : M unit :=
  fun w => (Fulfilled tt, mkWorld (f (storage w)) (trace w)).

(** [fetch(request)], in two steps: the request is issued, and later the
    promise settles. *)
Definition fetch_issue (k : string) : M unit := emit (EvFetch k).

Definition fetch_settle (env : Env) (k : string) : M Response :=
  match net env k with
  | Some r => ret r
  | None => throw "TypeError: Failed to fetch"
  end.

Definition fetch (env : Env) (k : string) : M Response :=
  fetch_issue k;; fetch_settle env k.

Definition caches_open (env : Env) (name : string) : M unit :=
  emit (EvOpen name);;
  if open_ok env name then set_storage (ensure name)
  else throw "UnknownError: cache storage unavailable".

Definition caches_match (env : Env) (k : string) : M (option Response) :=
  emit (EvMatch k);;
  if match_ok env k then fun w => (Fulfilled (lookup_all (storage w) k), w)
  else throw "UnknownError: cache storage unavailable".

Definition cache_put (env : Env) (name k : string) (r : Response) : M unit :=
  emit (EvPut name k);;
  if put_ok env name k r then set_storage (put_in name k r)
  else throw "QuotaExceededError".

(** The ok status of the Fetch standard: 200 to 299. *)
Definition ok_status (s : Z) : bool := (200 <=? s) && (s <=? 299).

(** [cache.addAll(urls)]: every URL is fetched; the promise rejects, and
    nothing is stored, when a fetch fails or answers with a status that is
    not ok, or when a write is refused; otherwise all entries are
    stored. *)
Fixpoint fetch_batch (env : Env) (keys : list string)
  : option (list (string * Response)) :=
  match keys with
  | [] => Some []
  | k :: keys' =>
      match net env k with
      | Some r =>
          if ok_status (status r) then
            match fetch_batch env keys' with
            | Some rs => Some ((k, r) :: rs)
            | None => None
            end
          else None
      | None => None
      end
  end.

Fixpoint issue_all (keys : list string) : M unit :=
  match keys with
  | [] => ret tt
  | k :: keys' => fetch_issue k;; issue_all keys'
  end.

Fixpoint put_all (name : string) (rs : list (string * Response))
    (cs : list (string * gmap string Response))
  : list (string * gmap string Response) :=
  match rs with
  | [] => cs
  | (k, r) :: rs' => put_all name rs' (put_in name k r cs)
  end.

Definition cache_addAll (env : Env) (name : string) (urls : list string)
  : M unit :=
  let keys := map (resolve env) urls in
  emit (EvAddAll name);;
  issue_all keys;;
  match fetch_batch env keys with
  | None => throw "TypeError: Failed to execute 'addAll' on 'Cache'"
  | Some rs =>
      if forallb (fun kr => put_ok env name (fst kr) (snd kr)) rs
      then set_storage (put_all name rs)
      else throw "QuotaExceededError"
  end.

(** [caches.keys()] and [caches.delete(name)]. *)
Definition caches_keys : M (list string) :=
  emit EvKeys;; fun w => (Fulfilled (storage w).*1, w).

Definition caches_delete (name : string) : M bool :=
  emit (EvDelete name);;
  fun w =>
    (Fulfilled (bool_decide (name ∈ (storage w).*1)),
     mkWorld (filter (fun nc => fst nc ≠ name) (storage w)) (trace w)).

Definition console_log (msg : string) : M unit := emit (EvLog msg).
Definition console_error (msg : string) : M unit := emit (EvError msg).
Definition skipWaiting : M unit := emit EvSkipWaiting.
Definition clients_claim : M unit := emit EvClaim.

End Platform.
Import Platform.

(** ** The strategy executors *)

(** [networkResponse && networkResponse.status === 200] *)
Definition cacheable (r : Response) : bool := bool_decide (status r = 200).

(** [async function cacheFirst(request)] *)
Definition cacheFirst (env : Env) (request : Request) : M Value :=
  try_catch
    (let* cacheResponse := caches_match env (url request) in
     match cacheResponse with
     | Some r => ret (VResponse r)
     | None =>
         let* networkResponse := fetch env (url request) in
         when (cacheable networkResponse)
           (caches_open env DYNAMIC_CACHE;;
            cache_put env DYNAMIC_CACHE (url request) networkResponse);;
         ret (VResponse networkResponse)
     end)
    (fun error =>
       console_error "Cache-first strategy failed:";;
       if bool_decide (destination request = "document") then
         let* fallback := caches_match env (resolve env "/index.html") in
         ret (match fallback with Some r => VResponse r | None => VUndefined end)
       else ret (VResponse offline_response)).

(** [async function networkFirst(request)] *)
Definition networkFirst (env : Env) (request : Request) : M Value :=
  try_catch
    (let* networkResponse := fetch env (url request) in
     when (cacheable networkResponse)
       (caches_open env DYNAMIC_CACHE;;
        cache_put env DYNAMIC_CACHE (url request) networkResponse);;
     ret (VResponse networkResponse))
    (fun error =>
       console_error "Network-first strategy failed:";;
       let* cacheResponse := caches_match env (url request) in
       match cacheResponse with
       | Some r => ret (VResponse r)
       | None => ret (VResponse offline_response)
       end).

(** [cache.put(...)] whose promise nobody awaits: a rejection reaches the
    worker's [unhandledrejection] listener, which logs it and calls
    [preventDefault]. *)
Definition put_detached (env : Env) (name k : string) (r : Response) : M unit :=
  try_catch (cache_put env name k r)
    (fun reason => console_error "Service Worker unhandled promise rejection:").

(** [async function staleWhileRevalidate(request)], first the part of the
    [try] block that runs before the function returns: the namespace is
    opened, the key looked up, and the fetch issued. *)
Definition swr_start (env : Env) (request : Request) : M (option Response) :=
  caches_open env DYNAMIC_CACHE;;
  let* cacheResponse := caches_match env (url request) in
  fetch_issue (url request);;
  ret cacheResponse.

(** [networkResponsePromise]: the fetch settles and the [then] or the
    [catch] callback runs. It never rejects. *)
Definition swr_settle (env : Env) (request : Request) : M Value :=
  try_catch
    (let* networkResponse := fetch_settle env (url request) in
     when (cacheable networkResponse)
       (put_detached env DYNAMIC_CACHE (url request) networkResponse);;
     ret (VResponse networkResponse))
    (fun error =>
       console_error "Background fetch failed:";;
       ret VNull).

(** [cacheResponse || networkResponsePromise] *)
Definition or_else (cacheResponse : option Response) (network : Value) : Value :=
  match cacheResponse with
  | Some r => VResponse r
  | None => network
  end.

(** The [catch] block of [staleWhileRevalidate]. *)
Definition swr_rescue (env : Env) (request : Request) : M Value :=
  console_error "Stale-while-revalidate strategy failed:";;
  try_catch
    (let* r := fetch env (url request) in ret (VResponse r))
    (fun _ => ret (VResponse offline_response_swr)).

(** The whole function, run until the background refresh has settled too. *)
Definition staleWhileRevalidate (env : Env) (request : Request) : M Value :=
  fun w =>
    match swr_start env request w with
    | (Fulfilled cacheResponse, w1) =>
        match swr_settle env request w1 with
        | (Fulfilled network, w2) => (Fulfilled (or_else cacheResponse network), w2)
        | (Rejected e, w2) => (Rejected e, w2)
        end
    | (Rejected error, w1) => swr_rescue env request w1
    end.

(** What the caller has at the moment the function returns, before the
    fetch settles: the cached response, or nothing yet. *)
Definition swr_immediate (env : Env) (request : Request) (w : World)
  : option Value :=
  match swr_start env request w with
  | (Fulfilled (Some r), _) => Some (VResponse r)
  | _ => None
  end.

(** ** The [fetch] listener *)

Inductive Strategy := CacheFirst | NetworkFirst | StaleWhileRevalidate.

#[global] Instance Strategy_eq_dec : EqDecision Strategy.
Proof. solve_decision. Defined.

(** The chain of [if]s of the listener: [None] is a [return] without
    [event.respondWith], the request is left to the browser. *)
Definition route (request : Request) : option Strategy :=
  if negb (bool_decide (method request = "GET")) then None
  else if negb (JsString.startsWith (url request) "http") then None
  else if existsb (fun pattern => JsString.includes (url request) pattern) NETWORK_FIRST
       then Some NetworkFirst
  else if existsb (fun pattern => JsString.includes (url request) pattern) STALE_WHILE_REVALIDATE
       then Some StaleWhileRevalidate
  else Some CacheFirst.

Definition execute (env : Env) (s : Strategy) (request : Request) : M Value :=
  match s with
  | NetworkFirst => networkFirst env request
  | StaleWhileRevalidate => staleWhileRevalidate env request
  | CacheFirst => cacheFirst env request
  end.

(** [self.addEventListener('fetch', ...)]: the promise given to
    [event.respondWith], or [None] when the listener returns without
    answering, and the world the listener leaves. *)
Definition on_fetch (env : Env) (request : Request) (w : World)
  : option (Settled Value) * World :=
  match route request with
  | None => (None, w)
  | Some s => let (p, w') := execute env s request w in (Some p, w')
  end.

(** ** The lifecycle listeners *)

(** [self.addEventListener('install', ...)]: the promise given to
    [event.waitUntil]. *)
Definition on_install (env : Env) : M unit :=
  console_log "Service Worker installing...";;
  try_catch
    (caches_open env STATIC_CACHE;;
     console_log "Caching static assets";;
     cache_addAll env STATIC_CACHE STATIC_ASSETS;;
     skipWaiting)
    (fun error => console_error "Failed to cache static assets:").

(** [Promise.all(names.map(name => caches.delete(name)))] *)
Fixpoint delete_each (names : list string) : M unit :=
  match names with
  | [] => ret tt
  | cacheName :: names' =>
      console_log "Deleting old cache:";;
      caches_delete cacheName;;
      delete_each names'
  end.

(** [self.addEventListener('activate', ...)] *)
Definition on_activate : M unit :=
  console_log "Service Worker activating...";;
  let* cacheNames := caches_keys in
  delete_each
    (filter (fun cacheName => cacheName ≠ STATIC_CACHE ∧ cacheName ≠ DYNAMIC_CACHE)
       cacheNames);;
  clients_claim.

(** The states of a worker, and what the browser makes of the promise that
    the [install] listener gave to [event.waitUntil]: a rejection fails the
    installation and discards the worker; otherwise the worker is installed,
    and it waits while a previous version is active, unless [skipWaiting]
    was called. *)
Inductive Lifecycle := Installing | Waiting | Active | Redundant.

Definition skip_requested (w : World) : bool :=
  bool_decide (EvSkipWaiting ∈ trace w).

Definition after_install (previous : bool) (result : Settled unit * World)
  : Lifecycle :=
  match result with
  | (Rejected _, _) => Redundant
  | (Fulfilled _, w) =>
      if skip_requested w || negb previous then Active else Waiting
  end.

(** Counting the fetches that a handler issued. *)
Definition is_fetch (e : Event) : bool :=
  match e with EvFetch _ => true | _ => false end.

Definition fetches (t : list Event) : nat := length (List.filter is_fetch t).

(** ** The other listeners *)

(** [async function sendAnalytics()] *)
Definition sendAnalytics : M unit :=
  console_log "Sending queued analytics data...".

(** [self.addEventListener('sync', ...)]: the promise given to
    [event.waitUntil], or [None] when the tag is not the one the listener
    knows. *)
Definition on_sync (tag : string) (w : World) : option (Settled unit) * World :=
  if bool_decide (tag = "analytics")
  then let (p, w') := sendAnalytics w in (Some p, w')
  else (None, w).

(** The values a field of a push payload can hold, as far as the listeners
    tell them apart: by truthiness. Numbers are the integers ([NaN] aside);
    [JsObject] is any object or array. *)
Inductive Js :=
| JsUndefined
| JsNull
| JsBool (b : bool)
| JsNumber (z : Z)
| JsString (s : string)
| JsObject.

Definition truthy (v : Js) : bool :=
  match v with
  | JsUndefined | JsNull => false
  | JsBool b => b
  | JsNumber z => negb (z =? 0)
  | JsString s => negb (bool_decide (s = ""))
  | JsObject => true
  end.

(** What [event.data.json()] or [notification.data] is: [null], a value
    without named fields of its own (a number, a string, a boolean, an
    array), or an object. *)
Inductive Data :=
| DataNull
| DataPrimitive
| DataObject (fields : gmap string Js).

(** [object.field], [undefined] when the object has no such field. *)
Definition get (fields : gmap string Js) (field : string) : Js :=
  default JsUndefined (fields !! field).

(** [event.data] of a push event: [null], or a message whose [json()]
    throws, or one that parses. *)
Inductive PushMessage :=
| NoMessage
| Unparsable
| Parsed (d : Data).

(** A notification: the title and the options given to
    [showNotification]. *)
Record Notification := mkNotification {
  n_title : Js;
  n_body : Js;
  n_icon : string;
  n_badge : string;
  n_data : Data
}.

Inductive UiEvent :=
| UiShow (n : Notification)        (* registration.showNotification(title, options) *)
| UiClose (n : Notification)       (* notification.close() *)
| UiOpenWindow (target : Js).      (* clients.openWindow(url) *)

(** An exception that leaves a listener reaches the worker's [error]
    listener, which logs it. *)
Definition uncaught (w : World) : World :=
  (console_error "Service Worker error:" w).2.

(** [data.title], [data.body], [data.url] on the parsed payload: reading a
    field of [null] throws. *)
Definition payload_fields (d : Data) : option (gmap string Js) :=
  match d with
  | DataNull => None
  | DataPrimitive => Some ∅
  | DataObject fields => Some fields
  end.

(** [self.addEventListener('push', ...)]: the promise given to
    [event.waitUntil] if the listener gets there, the notifications shown,
    and the world. [showNotification] rejects without the permission. *)
Definition on_push (permission : bool) (message : PushMessage) (w : World)
  : option (Settled unit) * list UiEvent * World :=
  match message with
  | NoMessage => (None, [], w)
  | Unparsable => (None, [], uncaught w)
  | Parsed d =>
      match payload_fields d with
      | None => (None, [], uncaught w)
      | Some data =>
          let options :=
            mkNotification (get data "title") (get data "body")
              "/images/icon-192.png" "/images/badge-72.png"
              (DataObject {[ "url" := get data "url" ]}) in
          if permission then (Some (Fulfilled tt), [UiShow options], w)
          else (Some (Rejected "TypeError: No notification permission"), [], w)
      end
  end.

(** [self.addEventListener('notificationclick', ...)] *)
Definition on_notificationclick (n : Notification) : list UiEvent :=
  UiClose n ::
  match n_data n with
  | DataObject fields =>
      if truthy (get fields "url") then [UiOpenWindow (get fields "url")] else []
  | _ => []
  end.

(** ** Vocabulary of the statements *)

Definition matches_network_first (u : string) : Prop :=
  exists pattern, pattern ∈ NETWORK_FIRST /\ JsString.contains u pattern.

Definition matches_stale_while_revalidate (u : string) : Prop :=
  exists pattern, pattern ∈ STALE_WHILE_REVALIDATE /\ JsString.contains u pattern.

(** [shadowed cs name k]: a namespace created before [name] holds the key
    [k], so that [caches.match] answers from it and never reaches [name]. *)
Fixpoint shadowed (cs : list (string * gmap string Response)) (name k : string)
  : bool :=
  match cs with
  | [] => false
  | (n, c) :: cs' =>
      if decide (n = name) then false
      else bool_decide (is_Some (c !! k)) || shadowed cs' name k
  end.

(** A fetch that [cache.addAll] cannot use: rejected, or answered with a
    status that is not ok. *)
Definition fetch_fails (env : Env) (k : string) : Prop :=
  match net env k with
  | None => True
  | Some r => ok_status (status r) = false
  end.

(** The same environment with another network. *)
Definition with_net (env : Env) (net' : string -> option Response) : Env :=
  mkEnv (origin env) net' (open_ok env) (match_ok env) (put_ok env).

(** The namespaces that activation keeps. *)
Definition current (name : string) : Prop :=
  name = STATIC_CACHE \/ name = DYNAMIC_CACHE.

(** What [delete_each] logs and asks for. *)
Definition deletions (names : list string) : list Event :=
  names ≫= (fun cacheName => [EvLog "Deleting old cache:"; EvDelete cacheName]).

(** The events a handler added to the trace. *)
Definition added (w w' : World) : list Event := drop (length (trace w)) (trace w').

(** The success statuses of HTTP, 200 to 299, as the specification's words
    "a success status code" read; the code tests [cacheable]. *)
Definition success_status (s : Z) : bool := ok_status s.

(** Concrete worlds for the examples. *)
Module Examples.

Definition site : string := "https://pizzaria.example".

Definition response (s : Z) (b : string) : Response := mkResponse s "" [] b.

(** Everything works; the network serves [serve]. *)
Definition env_with (serve : string -> option Response) : Env :=
  mkEnv site serve (fun _ => true) (fun _ => true) (fun _ _ _ => true).

Definition only (k : string) (r : Response) : string -> option Response :=
  fun u => if bool_decide (u = k) then Some r else None.

Definition offline : Env := env_with (fun _ => None).

(** The storage refuses every write. *)
Definition env_full (serve : string -> option Response) : Env :=
  mkEnv site serve (fun _ => true) (fun _ => true) (fun _ _ _ => false).

Definition fresh_world : World := mkWorld [] [].

Definition font_css : string := "https://fonts.googleapis.com/css2?family=Poppins".
Definition menu_api : string := "https://pizzaria.example/api/menu".
Definition styles_css : string := "https://pizzaria.example/styles.css".

(** The web-font stylesheet of the install manifest. *)
Definition manifest_font : string :=
  "https://fonts.googleapis.com/css2?family=Poppins:wght@400;500;600;700&family=Playfair+Display:wght@700&display=swap".

(** The network serves the same body for every URL. *)
Definition serving (b : string) : Env := env_with (fun _ => Some (response 200 b)).

(** The network serves every URL but one. *)
Definition serving_but (missing : string) : Env :=
  env_with (fun u => if bool_decide (u = missing) then None
                     else Some (response 200 "asset")).

(** The storage refuses every lookup and every write. *)
Definition env_refusing (serve : string -> option Response) : Env :=
  mkEnv site serve (fun _ => true) (fun _ => false) (fun _ _ _ => false).

(** Nothing works: no network, and the storage refuses every operation. *)
Definition broken : Env :=
  mkEnv site (fun _ => None) (fun _ => false) (fun _ => false) (fun _ _ _ => false).

(** The same site served from a host whose name begins with [contact]:
    every URL of that origin contains the network-first pattern
    [/contact]. *)
Definition contact_site : string := "https://contact.pizzaria.example".

Definition contact_serving (b : string) : Env :=
  mkEnv contact_site (fun _ => Some (response 200 b))
    (fun _ => true) (fun _ => true) (fun _ _ _ => true).

Definition contact_home : string := "https://contact.pizzaria.example/index.html".

Definition contact_installed_v1 : World :=
  (on_install (contact_serving "v1") fresh_world).2.

(** The world after a first version of the site was installed. *)
Definition installed_v1 : World := (on_install (serving "v1") fresh_world).2.

End Examples.

(** * Properties *)

(** ** Strings *)

Lemma append_String (a : Ascii.ascii) (s t : string) :
  String a s +:+ t = String a (s +:+ t).
Proof. reflexivity. Qed.

Lemma append_Empty (t : string) : EmptyString +:+ t = t.
Proof. reflexivity. Qed.

Lemma startsWith_spec (s pat : string) :
  JsString.startsWith s pat = true <-> exists post, s = pat +:+ post.
Proof.
  revert s. induction pat as [|a pat IH]; intros s; simpl.
  - split; [intros _; by exists s | done].
  - destruct s as [|b s].
    + split; [done | intros [post H]; discriminate H].
    + setoid_rewrite append_String.
      destruct (Ascii.eqb_spec a b) as [->|Hab].
      * rewrite IH. split; intros [post H]; exists post; congruence.
      * split; [done | intros [post H]; congruence].
Qed.

Lemma includes_unfold (s pat : string) :
  JsString.includes s pat =
  JsString.startsWith s pat ||
  match s with EmptyString => false | String _ s' => JsString.includes s' pat end.
Proof. by destruct s. Qed.

Lemma includes_spec (s pat : string) :
  JsString.includes s pat = true <-> JsString.contains s pat.
Proof.
  unfold JsString.contains. split.
  - induction s as [|c s IH]; rewrite includes_unfold, orb_true_iff.
    + intros [H|H]; [|done]. apply startsWith_spec in H as [post ->].
      by exists EmptyString, post.
    + intros [H|H].
      * apply startsWith_spec in H as [post ->]. by exists EmptyString, post.
      * destruct (IH H) as (pre & post & ->). by exists (String c pre), post.
  - intros (pre & post & ->). induction pre as [|c pre IH].
    + rewrite append_Empty, includes_unfold, orb_true_iff. left.
      apply startsWith_spec. by exists post.
    + rewrite append_String, includes_unfold, IH. apply orb_true_r.
Qed.

Lemma some_includes_spec (u : string) (patterns : list string) :
  existsb (fun pattern => JsString.includes u pattern) patterns = true <->
  exists pattern, pattern ∈ patterns /\ JsString.contains u pattern.
Proof.
  rewrite existsb_exists. split; intros (p & Hin & H); exists p.
  - split; [by apply list_elem_of_In | by apply includes_spec].
  - split; [by apply list_elem_of_In | by apply includes_spec].
Qed.

(** ** Routing *)

Lemma route_intercepted (request : Request) :
  method request = "GET" ->
  JsString.startsWith (url request) "http" = true ->
  route request =
    if existsb (fun pattern => JsString.includes (url request) pattern) NETWORK_FIRST
    then Some NetworkFirst
    else if existsb (fun pattern => JsString.includes (url request) pattern)
              STALE_WHILE_REVALIDATE
    then Some StaleWhileRevalidate
    else Some CacheFirst.
Proof.
  intros Hm Hu. unfold route. by rewrite bool_decide_eq_true_2, Hu.
Qed.

Lemma route_passes_through (request : Request) :
  method request ≠ "GET" \/ JsString.startsWith (url request) "http" = false ->
  route request = None.
Proof.
  intros [Hm|Hu]; unfold route.
  - by rewrite bool_decide_eq_false_2.
  - destruct (bool_decide (method request = "GET")); [by rewrite Hu | done].
Qed.

Lemma route_some_inv (request : Request) (s : Strategy) :
  route request = Some s ->
  method request = "GET" /\ JsString.startsWith (url request) "http" = true.
Proof.
  unfold route. case_bool_decide; [|done].
  destruct (JsString.startsWith (url request) "http"); [done | done].
Qed.

(** C5: an intercepted GET request gets exactly one strategy: network-first
    when its URL contains a network-first pattern, else
    stale-while-revalidate when it contains one of those patterns, else
    cache-first; and the listener answers with that executor. *)
Theorem route_classifies (request : Request) :
  method request = "GET" ->
  JsString.startsWith (url request) "http" = true ->
  (exists s, route request = Some s /\
             (forall s', route request = Some s' -> s' = s) /\
             forall env w,
               on_fetch env request w =
               (Some (execute env s request w).1, (execute env s request w).2)) /\
  (matches_network_first (url request) -> route request = Some NetworkFirst) /\
  (~ matches_network_first (url request) ->
   matches_stale_while_revalidate (url request) ->
   route request = Some StaleWhileRevalidate) /\
  (~ matches_network_first (url request) ->
   ~ matches_stale_while_revalidate (url request) ->
   route request = Some CacheFirst).
Proof.
  intros Hm Hu. pose proof (route_intercepted request Hm Hu) as Hr.
  unfold matches_network_first, matches_stale_while_revalidate.
  rewrite <- !some_includes_spec.
  destruct (existsb _ NETWORK_FIRST) eqn:Hnf;
    [|destruct (existsb _ STALE_WHILE_REVALIDATE) eqn:Hswr].
  all: split;
    [ eexists; split; [exact Hr|]; split; [congruence|];
      intros env w; unfold on_fetch; rewrite Hr;
      by destruct (execute env _ request w)
    | repeat split; intros; congruence ].
Qed.

Lemma route_classifies_witness :
  route (mkRequest "GET" "https://pizzaria.example/api/menu" "") = Some NetworkFirst /\
  route (mkRequest "GET" "https://fonts.gstatic.com/s/poppins.woff2" "font")
    = Some StaleWhileRevalidate /\
  route (mkRequest "GET" "https://pizzaria.example/styles.css" "style")
    = Some CacheFirst.
Proof.
  split; [|split].
  - apply (route_classifies (mkRequest "GET" "https://pizzaria.example/api/menu" ""));
      [reflexivity | reflexivity |].
    exists "/api/". split; [set_solver|].
    by exists "https://pizzaria.example", "menu".
  - apply (route_classifies
             (mkRequest "GET" "https://fonts.gstatic.com/s/poppins.woff2" "font"));
      [reflexivity | reflexivity | |].
    + unfold matches_network_first, matches_stale_while_revalidate;
      rewrite <- some_includes_spec; by vm_compute.
    + exists "https://fonts.gstatic.com/". split; [set_solver|].
      by exists "", "s/poppins.woff2".
  - apply (route_classifies
             (mkRequest "GET" "https://pizzaria.example/styles.css" "style"));
      [reflexivity | reflexivity | |].
    + unfold matches_network_first, matches_stale_while_revalidate;
      rewrite <- some_includes_spec; by vm_compute.
    + unfold matches_network_first, matches_stale_while_revalidate;
      rewrite <- some_includes_spec; by vm_compute.
Defined.

(** C10: the listener answers only GET requests whose URL begins with
    [http] (every [http:] and [https:] URL does); any other request is left
    to the browser, and the listener then neither reads nor writes the cache
    storage: the world is the one it found. *)
Theorem only_get_http_intercepted (env : Env) (request : Request) (w : World) :
  (method request ≠ "GET" \/ JsString.startsWith (url request) "http" = false ->
   on_fetch env request w = (None, w)) /\
  ((on_fetch env request w).1 ≠ None ->
   method request = "GET" /\ JsString.startsWith (url request) "http" = true) /\
  (method request = "GET" ->
   (exists rest, url request = "http://" +:+ rest \/ url request = "https://" +:+ rest) ->
   exists s, route request = Some s /\ (on_fetch env request w).1 ≠ None).
Proof.
  split; [|split].
  - intros H. unfold on_fetch. by rewrite (route_passes_through _ H).
  - unfold on_fetch. destruct (route request) as [s|] eqn:Hr; [|done].
    intros _. by apply (route_some_inv _ s).
  - intros Hm [rest Hrest].
    assert (JsString.startsWith (url request) "http" = true) as Hu.
    { apply startsWith_spec. destruct Hrest as [->| ->].
      - by exists ("://" +:+ rest).
      - by exists ("s://" +:+ rest). }
    pose proof (route_intercepted request Hm Hu) as Hr.
    assert (exists s, route request = Some s) as [s Hs].
    { rewrite Hr. repeat case_match; eauto. }
    exists s. split; [done|]. unfold on_fetch. rewrite Hs.
    by destruct (execute env s request w).
Qed.

Lemma only_get_http_intercepted_witness :
  let env := mkEnv "https://pizzaria.example" (fun _ => None)
               (fun _ => true) (fun _ => true) (fun _ _ _ => true) in
  let w := mkWorld [(DYNAMIC_CACHE, ∅)] [] in
  on_fetch env (mkRequest "POST" "https://pizzaria.example/contact" "") w = (None, w) /\
  on_fetch env (mkRequest "GET" "chrome-extension://abc/popup.js" "script") w = (None, w).
Proof.
  intros env w. split.
  - apply (only_get_http_intercepted env
             (mkRequest "POST" "https://pizzaria.example/contact" "") w).
    left. discriminate.
  - apply (only_get_http_intercepted env
             (mkRequest "GET" "chrome-extension://abc/popup.js" "script") w).
    right. reflexivity.
Defined.

(** ** The cache storage *)

Lemma lookup_in_ensure (cs : list (string * gmap string Response)) (n name k : string) :
  lookup_in (ensure n cs) name k = lookup_in cs name k.
Proof.
  induction cs as [|[m c] cs IH]; simpl.
  - by case_decide.
  - destruct (decide (m = n)); simpl; [done|]. by rewrite IH.
Qed.

Lemma lookup_all_ensure (cs : list (string * gmap string Response)) (n k : string) :
  lookup_all (ensure n cs) k = lookup_all cs k.
Proof.
  induction cs as [|[m c] cs IH]; simpl; [done|].
  destruct (decide (m = n)); simpl; [done|]. by rewrite IH.
Qed.

Lemma shadowed_ensure (cs : list (string * gmap string Response)) (n k : string) :
  shadowed (ensure n cs) n k = shadowed cs n k.
Proof.
  induction cs as [|[m c] cs IH]; simpl.
  - by rewrite decide_True.
  - destruct (decide (m = n)) as [->|Hne]; simpl.
    + by rewrite decide_True.
    + by rewrite decide_False, IH.
Qed.

Lemma lookup_in_put_in (cs : list (string * gmap string Response))
    (n k n' k' : string) (r : Response) :
  lookup_in (put_in n k r cs) n' k' =
  if decide (n' = n /\ k' = k) then Some r else lookup_in cs n' k'.
Proof.
  induction cs as [|[m c] cs IH]; simpl.
  - destruct (decide (n = n')) as [<-|Hn].
    + destruct (decide (k' = k)) as [->|Hk].
      * by rewrite lookup_singleton_eq, decide_True.
      * rewrite lookup_singleton_ne by done. rewrite decide_False; [done|]. tauto.
    + rewrite decide_False; [done|]. intros [? _]. congruence.
  - destruct (decide (m = n)) as [->|Hm]; simpl.
    + destruct (decide (n = n')) as [<-|Hn].
      * destruct (decide (k' = k)) as [->|Hk].
        -- by rewrite lookup_insert_eq, decide_True.
        -- rewrite lookup_insert_ne by done. rewrite decide_False; [done|]. tauto.
      * rewrite decide_False; [done|]. intros [? _]. congruence.
    + rewrite IH. destruct (decide (m = n')) as [<-|Hn]; [|done].
      rewrite decide_False; [done|]. intros [? _]. congruence.
Qed.

Lemma lookup_in_put_in_eq (cs : list (string * gmap string Response))
    (n k : string) (r : Response) :
  lookup_in (put_in n k r cs) n k = Some r.
Proof. rewrite lookup_in_put_in. by rewrite decide_True. Qed.

Lemma lookup_all_put_in (cs : list (string * gmap string Response))
    (n k : string) (r : Response) :
  lookup_all (put_in n k r cs) k =
  if shadowed cs n k then lookup_all cs k else Some r.
Proof.
  induction cs as [|[m c] cs IH]; simpl.
  - by rewrite lookup_singleton_eq.
  - destruct (decide (m = n)) as [->|Hm]; simpl.
    + by rewrite lookup_insert_eq.
    + destruct (c !! k) as [r'|] eqn:Hc; simpl; [done | apply IH].
Qed.

(** ** Traces *)

Lemma fetches_app (t t' : list Event) : fetches (t ++ t') = (fetches t + fetches t')%nat.
Proof. unfold fetches. by rewrite List.filter_app, length_app. Qed.

Lemma added_app (w w' : World) (t : list Event) :
  trace w' = trace w ++ t -> added w w' = t.
Proof. intros H. unfold added. by rewrite H, drop_app_length. Qed.

(** ** Running a handler *)

Ltac run :=
  unfold on_fetch, execute, cacheFirst, networkFirst, staleWhileRevalidate,
    swr_immediate, swr_start, swr_settle, swr_rescue, put_detached, or_else,
    try_catch, bind, ret, throw, when, fetch, fetch_issue, fetch_settle,
    caches_open, caches_match, cache_put, console_error, console_log, emit,
    set_storage, cacheable, with_net;
  simpl.

Ltac trace_simpl := rewrite ?fetches_app; unfold fetches; simpl.

Ltac in_list := repeat first [apply list_elem_of_here | apply list_elem_of_further].

Ltac not_in_list :=
  simpl; rewrite ?not_elem_of_cons;
  solve [repeat split; first [discriminate | apply not_elem_of_nil]].

(** ** Cache-first *)

(** C9: when a namespace holds the key, [cacheFirst] issues no fetch; and
    when the lookup answers, it returns the entry found, having done nothing
    but that lookup. *)
Theorem cacheFirst_hit_no_network (env : Env) (request : Request) (w : World)
    (r : Response) :
  lookup_all (storage w) (url request) = Some r ->
  fetches (trace (cacheFirst env request w).2) = fetches (trace w) /\
  (match_ok env (url request) = true ->
   cacheFirst env request w =
   (Fulfilled (VResponse r),
    mkWorld (storage w) (trace w ++ [EvMatch (url request)]))).
Proof.
  intros Hr. run. destruct (match_ok env (url request)); simpl.
  - rewrite Hr. simpl. trace_simpl. split; [lia | done].
  - split; [|done].
    case_bool_decide; simpl; [destruct (match_ok env _); simpl|];
      trace_simpl; lia.
Qed.

Lemma cacheFirst_hit_no_network_witness :
  let w := mkWorld [(STATIC_CACHE,
                     {[ Examples.styles_css := Examples.response 200 "CACHED" ]})] [] in
  let request := mkRequest "GET" Examples.styles_css "style" in
  (cacheFirst Examples.offline request w).1
    = Fulfilled (VResponse (Examples.response 200 "CACHED")) /\
  fetches (trace (cacheFirst Examples.offline request w).2) = 0%nat.
Proof.
  intros w request.
  destruct (cacheFirst_hit_no_network Examples.offline request w
              (Examples.response 200 "CACHED")) as [Hf Hr];
    [reflexivity|].
  split; [by rewrite Hr | exact Hf].
Defined.

(** ** Network-first *)

(** On every path, the first thing [networkFirst] does is to issue the
    fetch. *)
Lemma networkFirst_fetches_first (env : Env) (request : Request) (w : World) :
  exists t, trace (networkFirst env request w).2
            = trace w ++ EvFetch (url request) :: t.
Proof.
  run. destruct (net env (url request)) as [n|]; simpl.
  - case_bool_decide; simpl.
    + destruct (open_ok env DYNAMIC_CACHE); simpl;
        [destruct (put_ok env DYNAMIC_CACHE (url request) n); simpl|].
      all: destruct (match_ok env (url request)); simpl;
        try destruct (lookup_all _ _); simpl;
        rewrite <- ?app_assoc; simpl; eauto.
    + rewrite <- ?app_assoc; simpl; eauto.
  - destruct (match_ok env (url request)); simpl;
      try destruct (lookup_all _ _); simpl;
      rewrite <- ?app_assoc; simpl; eauto.
Qed.

(** C7 (as amended): when the fetch answers with status 200 and the write
    into the dynamic namespace is accepted, [networkFirst] fetches before
    any cache operation and never looks the key up, returns the network
    response, and leaves it under the key in the dynamic namespace; a
    lookup over all namespaces answers with it unless a namespace created
    before the dynamic one holds the key, whose entry then still answers. *)
Theorem networkFirst_success_persists (env : Env) (request : Request)
    (w : World) (n : Response) :
  net env (url request) = Some n ->
  status n = 200 ->
  open_ok env DYNAMIC_CACHE = true ->
  put_ok env DYNAMIC_CACHE (url request) n = true ->
  (networkFirst env request w).1 = Fulfilled (VResponse n) /\
  added w (networkFirst env request w).2
    = [EvFetch (url request); EvOpen DYNAMIC_CACHE;
       EvPut DYNAMIC_CACHE (url request)] /\
  lookup_in (storage (networkFirst env request w).2) DYNAMIC_CACHE (url request)
    = Some n /\
  lookup_all (storage (networkFirst env request w).2) (url request)
    = if shadowed (storage w) DYNAMIC_CACHE (url request)
      then lookup_all (storage w) (url request) else Some n.
Proof.
  intros Hnet Hst Hopen Hput. run.
  rewrite Hnet; simpl. rewrite bool_decide_eq_true_2 by done. simpl.
  rewrite Hopen; simpl. rewrite Hput; simpl.
  split; [done|]. split.
  - apply added_app. simpl. by rewrite <- !app_assoc.
  - split.
    + apply lookup_in_put_in_eq.
    + by rewrite lookup_all_put_in, shadowed_ensure, lookup_all_ensure.
Qed.

Lemma networkFirst_success_persists_witness :
  let request := mkRequest "GET" Examples.menu_api "" in
  let env := Examples.env_with (Examples.only Examples.menu_api
                                  (Examples.response 200 "MENU")) in
  (networkFirst env request Examples.fresh_world).1
    = Fulfilled (VResponse (Examples.response 200 "MENU")) /\
  lookup_all (storage (networkFirst env request Examples.fresh_world).2)
    Examples.menu_api = Some (Examples.response 200 "MENU").
Proof.
  intros request env.
  destruct (networkFirst_success_persists env request Examples.fresh_world
              (Examples.response 200 "MENU")) as (Hr & _ & _ & Hl);
    [reflexivity | reflexivity | reflexivity | reflexivity |].
  split; [exact Hr | exact Hl].
Defined.

(** C7 as stated fails in three ways. When the write is refused the caller
    does not get the network response. A response with a success status
    other than 200 is returned and not stored. And an entry of the key in a
    namespace older than the dynamic one keeps answering the lookup after
    the network response was stored: so it is for the pages that [install]
    stored in the static namespace, on an origin whose URLs contain
    [/contact]. *)
Lemma networkFirst_roundtrip_counterexample :
  let fresh := Examples.response 200 "NEW" in
  let created := Examples.response 201 "CREATED" in
  let menu := mkRequest "GET" Examples.menu_api "" in
  (networkFirst (Examples.env_full (Examples.only Examples.menu_api fresh))
     menu Examples.fresh_world).1 ≠ Fulfilled (VResponse fresh) /\
  (let result := networkFirst
                   (Examples.env_with (Examples.only Examples.menu_api created))
                   menu Examples.fresh_world in
   result.1 = Fulfilled (VResponse created) /\
   lookup_all (storage result.2) Examples.menu_api = None) /\
  let request := mkRequest "GET" Examples.contact_home "document" in
  let result := on_fetch (Examples.contact_serving "v2") request
                  Examples.contact_installed_v1 in
  route request = Some NetworkFirst /\
  result.1 = Some (Fulfilled (VResponse (Examples.response 200 "v2"))) /\
  lookup_all (storage result.2) Examples.contact_home
    = Some (Examples.response 200 "v1").
Proof. vm_compute. split; [discriminate | by repeat split]. Qed.

(** ** Stale-while-revalidate *)

(** The background chain [networkResponsePromise] never rejects. *)
Lemma swr_settle_fulfils (env : Env) (request : Request) (w : World) :
  exists v, (swr_settle env request w).1 = Fulfilled v.
Proof.
  run. destruct (net env (url request)) as [n|]; simpl; [|eauto].
  case_bool_decide; simpl; [|eauto].
  destruct (put_ok env DYNAMIC_CACHE (url request) n); simpl; eauto.
Qed.

(** Whatever happens, [staleWhileRevalidate] issues exactly one fetch. *)
Lemma swr_one_fetch (env : Env) (request : Request) (w : World) :
  fetches (trace (staleWhileRevalidate env request w).2) = S (fetches (trace w)).
Proof.
  run. destruct (open_ok env DYNAMIC_CACHE); simpl;
    [destruct (match_ok env (url request)); simpl|].
  all: destruct (net env (url request)) as [n|]; simpl;
    try (case_bool_decide; simpl;
         try (destruct (put_ok env DYNAMIC_CACHE (url request) n); simpl));
    trace_simpl; lia.
Qed.

(** C6 (as amended): with a cached entry for the key, a fetch that answers
    with status 200 and a write that the storage accepts,
    [staleWhileRevalidate] has the cached entry for the caller before the
    fetch settles, whatever the network does; it issues one fetch; once that
    fetch has settled the dynamic namespace holds the network response under
    the key; and a lookup over all namespaces answers with the network
    response unless a namespace created before the dynamic one holds the
    key, in which case it still answers with the stale entry. *)
Theorem swr_two_phase (env : Env) (request : Request) (w : World)
    (stale fresh : Response) :
  open_ok env DYNAMIC_CACHE = true ->
  match_ok env (url request) = true ->
  lookup_all (storage w) (url request) = Some stale ->
  net env (url request) = Some fresh ->
  status fresh = 200 ->
  put_ok env DYNAMIC_CACHE (url request) fresh = true ->
  (forall net', swr_immediate (with_net env net') request w
                = Some (VResponse stale)) /\
  (staleWhileRevalidate env request w).1 = Fulfilled (VResponse stale) /\
  fetches (trace (staleWhileRevalidate env request w).2) = S (fetches (trace w)) /\
  lookup_in (storage (staleWhileRevalidate env request w).2)
    DYNAMIC_CACHE (url request) = Some fresh /\
  lookup_all (storage (staleWhileRevalidate env request w).2) (url request)
    = if shadowed (storage w) DYNAMIC_CACHE (url request)
      then Some stale else Some fresh.
Proof.
  intros Hopen Hmatch Hstale Hnet Hst Hput.
  split; [|split; [|split; [apply swr_one_fetch|]]].
  - intros net'. run. rewrite Hopen; simpl. rewrite Hmatch; simpl.
    by rewrite lookup_all_ensure, Hstale.
  - run. rewrite Hopen; simpl. rewrite Hmatch; simpl. rewrite Hnet; simpl.
    rewrite bool_decide_eq_true_2 by done. simpl. rewrite Hput; simpl.
    by rewrite lookup_all_ensure, Hstale.
  - run. rewrite Hopen; simpl. rewrite Hmatch; simpl. rewrite Hnet; simpl.
    rewrite bool_decide_eq_true_2 by done. simpl. rewrite Hput; simpl.
    split; [apply lookup_in_put_in_eq|].
    by rewrite lookup_all_put_in, shadowed_ensure, lookup_all_ensure, Hstale.
Qed.

Lemma swr_two_phase_witness :
  let request := mkRequest "GET" Examples.font_css "style" in
  let env := Examples.env_with (Examples.only Examples.font_css
                                  (Examples.response 200 "NEW")) in
  let w := mkWorld [(DYNAMIC_CACHE,
                     {[ Examples.font_css := Examples.response 200 "OLD" ]})] [] in
  (staleWhileRevalidate env request w).1
    = Fulfilled (VResponse (Examples.response 200 "OLD")) /\
  lookup_all (storage (staleWhileRevalidate env request w).2) Examples.font_css
    = Some (Examples.response 200 "NEW").
Proof.
  intros request env w.
  destruct (swr_two_phase env request w (Examples.response 200 "OLD")
              (Examples.response 200 "NEW")) as (_ & Hr & _ & _ & Hl);
    [reflexivity | reflexivity | reflexivity | reflexivity | reflexivity
    | reflexivity |].
  split; [exact Hr | exact Hl].
Defined.

(** C6 as stated fails on the worker's own manifest: the web-font
    stylesheet is stored in the static namespace by [install] and routed to
    [staleWhileRevalidate]; the refresh is written to the dynamic namespace,
    which is created later, so the lookup keeps answering with the installed
    bytes. It also fails when the storage refuses the write. *)
Lemma swr_refresh_counterexample :
  let request := mkRequest "GET" Examples.manifest_font "style" in
  let w' := (on_fetch (Examples.serving "v2") request Examples.installed_v1).2 in
  (route request = Some StaleWhileRevalidate /\
   lookup_all (storage Examples.installed_v1) Examples.manifest_font
     = Some (Examples.response 200 "v1") /\
   net (Examples.serving "v2") Examples.manifest_font
     = Some (Examples.response 200 "v2") /\
   (on_fetch (Examples.serving "v2") request Examples.installed_v1).1
     = Some (Fulfilled (VResponse (Examples.response 200 "v1"))) /\
   lookup_in (storage w') DYNAMIC_CACHE Examples.manifest_font
     = Some (Examples.response 200 "v2") /\
   lookup_all (storage w') Examples.manifest_font
     ≠ Some (Examples.response 200 "v2")) /\
  let stale := Examples.response 200 "OLD" in
  let fresh := Examples.response 200 "NEW" in
  let w := mkWorld [(DYNAMIC_CACHE, {[ Examples.font_css := stale ]})] [] in
  lookup_all
    (storage (staleWhileRevalidate
                (Examples.env_full (Examples.only Examples.font_css fresh))
                (mkRequest "GET" Examples.font_css "style") w).2)
    Examples.font_css ≠ Some fresh.
Proof. vm_compute. repeat split; discriminate. Qed.

(** ** What the executors store *)

Ltac paths env :=
  repeat match goal with
    | |- context [match_ok env ?k] => destruct (match_ok env k) eqn:?; simpl
    | |- context [open_ok env ?k] => destruct (open_ok env k) eqn:?; simpl
    | |- context [net env ?k] => destruct (net env k) eqn:?; simpl
    | |- context [put_ok env ?a ?k ?r] => destruct (put_ok env a k r) eqn:?; simpl
    | |- context [bool_decide ?P] => destruct (bool_decide_reflect P); simpl
    | |- context [lookup_all ?cs ?k] => destruct (lookup_all cs k) eqn:?; simpl
    end.

(** After any executor the storage is the one it found, possibly with the
    dynamic namespace created, possibly with the network response of status
    200 written under the key of the request. *)
Lemma execute_storage (env : Env) (s : Strategy) (request : Request) (w : World) :
  let cs' := storage (execute env s request w).2 in
  cs' = storage w \/
  cs' = ensure DYNAMIC_CACHE (storage w) \/
  exists n, net env (url request) = Some n /\ status n = 200 /\
            cs' = put_in DYNAMIC_CACHE (url request) n
                    (ensure DYNAMIC_CACHE (storage w)).
Proof.
  destruct s; run; paths env; eauto 10.
Qed.

(** No executor ever stores anything but a network response of status 200,
    under the key of its request, in the dynamic namespace. *)
Lemma execute_stores_only_200 (env : Env) (s : Strategy) (request : Request)
    (w : World) (name k : string) (r : Response) :
  lookup_in (storage (execute env s request w).2) name k = Some r ->
  lookup_in (storage w) name k = Some r \/
  (name = DYNAMIC_CACHE /\ k = url request /\
   net env (url request) = Some r /\ status r = 200).
Proof.
  destruct (execute_storage env s request w) as [-> | [-> | (n & Hn & Hst & ->)]].
  - by left.
  - rewrite lookup_in_ensure. by left.
  - rewrite lookup_in_put_in, lookup_in_ensure.
    case_decide as Hd; [|by left].
    destruct Hd as [-> ->]. intros [= <-]. by right.
Qed.

(** C4 (as amended): an executor stores nothing but network responses of
    status 200. When the storage accepts the open, the lookup and the put,
    the network response that an executor obtained in its [try] block is
    written to the dynamic namespace if and only if its status is exactly
    200: with any other status, the other success statuses included, no
    write is attempted and every entry stays as it was. In both cases
    [cacheFirst] and [networkFirst] return the network response, and
    [staleWhileRevalidate] returns the cached entry when there is one and
    the network response otherwise. When the open or the put is refused,
    every entry stays as it was. When the open or the lookup of
    [staleWhileRevalidate] is refused, it answers from its [catch] block,
    with what a fetch of its own gives or a bare 503 response, and writes
    nothing, whatever the status. *)
Theorem stored_iff_status_200 (env : Env) (s : Strategy) (request : Request)
    (w : World) :
  (forall name k r,
     lookup_in (storage (execute env s request w).2) name k = Some r ->
     lookup_in (storage w) name k = Some r \/
     (name = DYNAMIC_CACHE /\ k = url request /\
      net env (url request) = Some r /\ status r = 200)) /\
  (forall n,
     net env (url request) = Some n ->
     open_ok env DYNAMIC_CACHE = true ->
     match_ok env (url request) = true ->
     put_ok env DYNAMIC_CACHE (url request) n = true ->
     (s = CacheFirst -> lookup_all (storage w) (url request) = None) ->
     (execute env s request w).1 =
       Fulfilled (match s with
                  | StaleWhileRevalidate =>
                      or_else (lookup_all (storage w) (url request)) (VResponse n)
                  | _ => VResponse n
                  end) /\
     (status n = 200 ->
      EvPut DYNAMIC_CACHE (url request) ∈ added w (execute env s request w).2 /\
      lookup_in (storage (execute env s request w).2) DYNAMIC_CACHE (url request)
        = Some n) /\
     (status n ≠ 200 ->
      (forall name k, EvPut name k ∉ added w (execute env s request w).2) /\
      forall name k,
        lookup_in (storage (execute env s request w).2) name k
        = lookup_in (storage w) name k)) /\
  (forall n,
     net env (url request) = Some n ->
     open_ok env DYNAMIC_CACHE = false \/
     put_ok env DYNAMIC_CACHE (url request) n = false ->
     forall name k,
       lookup_in (storage (execute env s request w).2) name k
       = lookup_in (storage w) name k) /\
  (s = StaleWhileRevalidate ->
   open_ok env DYNAMIC_CACHE = false \/ match_ok env (url request) = false ->
   (execute env s request w).1 =
     Fulfilled (VResponse (default offline_response_swr (net env (url request)))) /\
   (forall name k, EvPut name k ∉ added w (execute env s request w).2) /\
   forall name k,
     lookup_in (storage (execute env s request w).2) name k
     = lookup_in (storage w) name k).
Proof.
  split; [intros name k r; apply execute_stores_only_200|].
  split; [|split].
  - intros n Hnet Hopen Hmatch Hput Hmiss. split; [|split].
    + destruct s; run; rewrite ?Hmatch; simpl;
        rewrite ?Hmiss by done; simpl; rewrite ?Hopen, ?Hnet; simpl;
        rewrite ?Hmatch; simpl; rewrite ?Hnet; simpl.
      all: case_bool_decide; simpl; rewrite ?Hopen; simpl; rewrite ?Hput; simpl;
        by rewrite ?lookup_all_ensure.
    + intros Hst.
      destruct s; run; rewrite ?Hmatch; simpl;
        rewrite ?Hmiss by done; simpl; rewrite ?Hopen, ?Hnet; simpl;
        rewrite ?Hmatch; simpl;
        rewrite ?Hnet; simpl; rewrite ?bool_decide_eq_true_2 by done; simpl;
        rewrite ?Hopen; simpl; rewrite ?Hput; simpl.
      all: split; [|apply lookup_in_put_in_eq].
      all: unfold added; simpl; rewrite <- ?app_assoc, drop_app_length; in_list.
    + intros Hst.
      destruct s; run; rewrite ?Hmatch; simpl;
        rewrite ?Hmiss by done; simpl; rewrite ?Hopen, ?Hnet; simpl;
        rewrite ?Hmatch; simpl;
        rewrite ?Hnet; simpl; rewrite ?bool_decide_eq_false_2 by done; simpl.
      all: split; [|intros; by rewrite ?lookup_in_ensure].
      all: intros name k; unfold added; simpl;
        rewrite <- ?app_assoc, drop_app_length; simpl; not_in_list.
  - intros n Hnet Hfail name k.
    destruct Hfail as [Hopen|Hput].
    + destruct s; run; rewrite ?Hopen, ?Hnet; simpl; paths env;
        rewrite ?Hnet; simpl; rewrite ?Hopen; simpl;
        by rewrite ?lookup_in_ensure.
    + destruct s; run; rewrite ?Hnet; simpl; paths env;
        rewrite ?Hnet; simpl; rewrite ?Hput; simpl; paths env;
        solve [by rewrite ?lookup_in_ensure | congruence].
  - intros -> Hfail. run.
    destruct (open_ok env DYNAMIC_CACHE) eqn:Hopen; simpl.
    + destruct Hfail as [?|Hmatch]; [done|]. rewrite Hmatch; simpl.
      destruct (net env (url request)); simpl.
      all: split; [done|]; split; [|intros; by rewrite lookup_in_ensure].
      all: intros name k; unfold added; simpl;
        rewrite <- ?app_assoc, drop_app_length; simpl; not_in_list.
    + destruct (net env (url request)); simpl.
      all: split; [done|]; split; [|done].
      all: intros name k; unfold added; simpl;
        rewrite <- ?app_assoc, drop_app_length; simpl; not_in_list.
Qed.

Lemma stored_iff_status_200_witness :
  let request := mkRequest "GET" Examples.styles_css "style" in
  let home := Examples.response 200 "HOME" in
  let env := Examples.env_with (Examples.only Examples.styles_css home) in
  lookup_in (storage (execute env CacheFirst request Examples.fresh_world).2)
    DYNAMIC_CACHE Examples.styles_css = Some home.
Proof.
  intros request home env.
  destruct (stored_iff_status_200 env CacheFirst request Examples.fresh_world)
    as (_ & H & _).
  destruct (H home) as (_ & H200 & _);
    [reflexivity | reflexivity | reflexivity | reflexivity | reflexivity |].
  apply H200. reflexivity.
Defined.

(** C4 as stated fails for the success statuses other than 200: a response
    with status 204 is returned to the caller and not stored. And a
    response with status 200 is not stored when the storage refuses the
    write. *)
Lemma success_status_counterexample :
  let request := mkRequest "GET" Examples.menu_api "" in
  let n := Examples.response 204 "" in
  let env := Examples.env_with (Examples.only Examples.menu_api n) in
  let result := execute env NetworkFirst request Examples.fresh_world in
  (result.1 = Fulfilled (VResponse n) /\
   ~ (lookup_in (storage result.2) DYNAMIC_CACHE Examples.menu_api = Some n <->
      success_status (status n) = true)) /\
  let ok := Examples.response 200 "MENU" in
  let result := execute (Examples.env_full (Examples.only Examples.menu_api ok))
                  NetworkFirst request Examples.fresh_world in
  ~ (lookup_in (storage result.2) DYNAMIC_CACHE Examples.menu_api = Some ok <->
     success_status (status ok) = true).
Proof.
  vm_compute. split; [split; [reflexivity|] |]; intros [_ H];
    by specialize (H eq_refl).
Qed.

(** ** Failures *)

(** C3 (as amended): when the network answered with status 200 and the
    write into the dynamic namespace fails, the failure is logged, but only
    [staleWhileRevalidate], which does not await the write, completes with
    the response it had obtained. [cacheFirst] and [networkFirst] await the
    write inside their [try] block, and end with what their [catch] block
    does: [cacheFirst] fulfils with the offline response, or for a document
    with the outcome of the lookup of [/index.html], and rejects when that
    lookup is refused; [networkFirst] fulfils with the cached entry of the
    key, if any, else with the offline response, and rejects when the
    lookup of the key is refused. *)
Theorem write_failure_outcome (env : Env) (request : Request) (w : World)
    (n : Response) :
  net env (url request) = Some n ->
  status n = 200 ->
  (match_ok env (url request) = true ->
   lookup_all (storage w) (url request) = None ->
   open_ok env DYNAMIC_CACHE = false \/
   put_ok env DYNAMIC_CACHE (url request) n = false ->
   EvError "Cache-first strategy failed:" ∈ added w (cacheFirst env request w).2 /\
   (destination request ≠ "document" ->
    (cacheFirst env request w).1 = Fulfilled (VResponse offline_response)) /\
   (destination request = "document" ->
    match_ok env (resolve env "/index.html") = true ->
    (cacheFirst env request w).1 =
    Fulfilled (match lookup_all (storage w) (resolve env "/index.html") with
               | Some r => VResponse r
               | None => VUndefined
               end)) /\
   (destination request = "document" ->
    match_ok env (resolve env "/index.html") = false ->
    exists reason, (cacheFirst env request w).1 = Rejected reason)) /\
  (open_ok env DYNAMIC_CACHE = false \/
   put_ok env DYNAMIC_CACHE (url request) n = false ->
   EvError "Network-first strategy failed:" ∈ added w (networkFirst env request w).2 /\
   (match_ok env (url request) = true ->
    (networkFirst env request w).1 =
    Fulfilled (VResponse (default offline_response
                            (lookup_all (storage w) (url request))))) /\
   (match_ok env (url request) = false ->
    exists reason, (networkFirst env request w).1 = Rejected reason)) /\
  (open_ok env DYNAMIC_CACHE = true ->
   match_ok env (url request) = true ->
   put_ok env DYNAMIC_CACHE (url request) n = false ->
   EvError "Service Worker unhandled promise rejection:"
     ∈ added w (staleWhileRevalidate env request w).2 /\
   (staleWhileRevalidate env request w).1 =
   Fulfilled (or_else (lookup_all (storage w) (url request)) (VResponse n))).
Proof.
  intros Hnet Hst. split; [|split].
  - intros Hmatch Hmiss Hfail. run. rewrite Hmatch; simpl. rewrite Hmiss; simpl.
    rewrite Hnet; simpl. rewrite bool_decide_eq_true_2 by done. simpl.
    destruct (open_ok env DYNAMIC_CACHE) eqn:Hopen; simpl.
    + destruct Hfail as [?|Hput]; [done|]. rewrite Hput; simpl.
      split; [|split; [|split]].
      * destruct (bool_decide_reflect (destination request = "document")); simpl;
          [destruct (match_ok env (resolve env "/index.html")); simpl|];
          unfold added; simpl; rewrite <- ?app_assoc, drop_app_length; in_list.
      * intros Hd. by rewrite bool_decide_eq_false_2.
      * intros Hd Hidx. rewrite bool_decide_eq_true_2 by done. simpl.
        rewrite Hidx; simpl. by rewrite lookup_all_ensure.
      * intros Hd Hidx. rewrite bool_decide_eq_true_2 by done. simpl.
        rewrite Hidx; simpl. by eexists.
    + split; [|split; [|split]].
      * destruct (bool_decide_reflect (destination request = "document")); simpl;
          [destruct (match_ok env (resolve env "/index.html")); simpl|];
          unfold added; simpl; rewrite <- ?app_assoc, drop_app_length; in_list.
      * intros Hd. by rewrite bool_decide_eq_false_2.
      * intros Hd Hidx. rewrite bool_decide_eq_true_2 by done. simpl.
        by rewrite Hidx.
      * intros Hd Hidx. rewrite bool_decide_eq_true_2 by done. simpl.
        rewrite Hidx; simpl. by eexists.
  - intros Hfail. run. rewrite Hnet; simpl.
    rewrite bool_decide_eq_true_2 by done. simpl.
    destruct (open_ok env DYNAMIC_CACHE) eqn:Hopen; simpl.
    + destruct Hfail as [?|Hput]; [done|]. rewrite Hput; simpl.
      destruct (match_ok env (url request)); simpl.
      * rewrite lookup_all_ensure.
        destruct (lookup_all (storage w) (url request)); simpl;
          (split; [|by split]);
          unfold added; simpl; rewrite <- ?app_assoc, drop_app_length; in_list.
      * split; [|split; [done | by eexists]].
        unfold added; simpl; rewrite <- ?app_assoc, drop_app_length; in_list.
    + destruct (match_ok env (url request)); simpl.
      * destruct (lookup_all (storage w) (url request)); simpl;
          (split; [|by split]);
          unfold added; simpl; rewrite <- ?app_assoc, drop_app_length; in_list.
      * split; [|split; [done | by eexists]].
        unfold added; simpl; rewrite <- ?app_assoc, drop_app_length; in_list.
  - intros Hopen Hmatch Hput. run. rewrite Hopen; simpl. rewrite Hmatch; simpl.
    rewrite Hnet; simpl. rewrite bool_decide_eq_true_2 by done. simpl.
    rewrite Hput; simpl. rewrite lookup_all_ensure. split; [|done].
    unfold added; simpl; rewrite <- ?app_assoc, drop_app_length; in_list.
Qed.

Lemma write_failure_outcome_witness :
  let request := mkRequest "GET" Examples.font_css "style" in
  let n := Examples.response 200 "FONT" in
  let env := Examples.env_full (Examples.only Examples.font_css n) in
  (cacheFirst env request Examples.fresh_world).1
    = Fulfilled (VResponse offline_response) /\
  (networkFirst env request Examples.fresh_world).1
    = Fulfilled (VResponse offline_response) /\
  (staleWhileRevalidate env request Examples.fresh_world).1
    = Fulfilled (VResponse n).
Proof.
  intros request n env.
  destruct (write_failure_outcome env request Examples.fresh_world n)
    as (Hcf & Hnf & Hswr); [reflexivity | reflexivity |].
  split; [|split].
  - destruct Hcf as (_ & H & _); [reflexivity | reflexivity | by right |].
    apply H. discriminate.
  - destruct Hnf as (_ & H & _); [by right |]. by apply H.
  - destruct Hswr as [_ H]; [reflexivity | reflexivity | reflexivity |]. exact H.
Defined.

(** C3 as stated fails in [cacheFirst]: the network answered 200, the write
    was refused, and the caller gets the offline response. And when the
    lookup is refused as well, [networkFirst] does not complete at all: its
    promise rejects. *)
Lemma write_failure_counterexample :
  let request := mkRequest "GET" Examples.styles_css "style" in
  let n := Examples.response 200 "body{}" in
  let env := Examples.env_full (Examples.only Examples.styles_css n) in
  (net env (url request) = Some n /\
   (cacheFirst env request Examples.fresh_world).1
     = Fulfilled (VResponse offline_response) /\
   (cacheFirst env request Examples.fresh_world).1 ≠ Fulfilled (VResponse n)) /\
  exists reason,
    (networkFirst (Examples.env_refusing (Examples.only Examples.styles_css n))
       request Examples.fresh_world).1 = Rejected reason.
Proof.
  vm_compute. split; [|by eexists].
  split; [reflexivity|]. split; [reflexivity | discriminate].
Qed.

(** Where the executors do answer with a response. *)
Lemma executors_answer (env : Env) (request : Request) (w : World) :
  (destination request ≠ "document" ->
   exists r, (cacheFirst env request w).1 = Fulfilled (VResponse r)) /\
  (match_ok env (url request) = true ->
   exists r, (networkFirst env request w).1 = Fulfilled (VResponse r)) /\
  (forall n, net env (url request) = Some n ->
   exists r, (staleWhileRevalidate env request w).1 = Fulfilled (VResponse r)) /\
  (forall c, open_ok env DYNAMIC_CACHE = true ->
   match_ok env (url request) = true ->
   lookup_all (storage w) (url request) = Some c ->
   (staleWhileRevalidate env request w).1 = Fulfilled (VResponse c)).
Proof.
  split; [|split; [|split]].
  - intros Hd. run. rewrite (bool_decide_eq_false_2 _ Hd). paths env; eauto.
  - intros Hm. run. rewrite !Hm. paths env; eauto.
  - intros n Hn. run. rewrite !Hn. paths env; eauto.
  - intros c Hopen Hm Hc. run. rewrite Hopen; simpl. rewrite Hm; simpl.
    rewrite lookup_all_ensure, Hc. paths env; eauto.
Qed.

(** And where [staleWhileRevalidate] does not: no cached entry and a fetch
    that fails resolve to [null]. *)
Lemma swr_miss_offline_null (env : Env) (request : Request) (w : World) :
  open_ok env DYNAMIC_CACHE = true ->
  match_ok env (url request) = true ->
  lookup_all (storage w) (url request) = None ->
  net env (url request) = None ->
  (staleWhileRevalidate env request w).1 = Fulfilled VNull.
Proof.
  intros Hopen Hm Hc Hn. run. rewrite Hopen; simpl. rewrite Hm; simpl.
  rewrite Hn; simpl. by rewrite lookup_all_ensure, Hc.
Qed.

(** C1, at the input where the code departs from it: a web-font request,
    nothing cached, the network unreachable. The listener answers with a
    promise that fulfils with [null], which is not a response. The [catch]
    block of the same function, like those of the two other executors,
    answers a failed fetch with the offline response. *)
Theorem swr_offline_miss_resolves_null :
  on_fetch Examples.offline (mkRequest "GET" Examples.font_css "style")
    Examples.fresh_world
  = (Some (Fulfilled VNull),
     mkWorld [(DYNAMIC_CACHE, ∅)]
       [EvOpen DYNAMIC_CACHE; EvMatch Examples.font_css;
        EvFetch Examples.font_css; EvError "Background fetch failed:"]) /\
  is_response VNull = false /\
  (swr_rescue Examples.offline (mkRequest "GET" Examples.font_css "style")
     Examples.fresh_world).1 = Fulfilled (VResponse offline_response_swr).
Proof. vm_compute. repeat split. Qed.

(** The two other ways in which an executor ends without a response: the
    document fallback of [cacheFirst] when [/index.html] is not cached, and
    a lookup that fails inside a [catch] block. *)
Lemma fallbacks_without_response :
  (cacheFirst Examples.offline
     (mkRequest "GET" "https://pizzaria.example/menu.html" "document")
     Examples.fresh_world).1 = Fulfilled VUndefined /\
  (exists reason,
     (networkFirst Examples.broken (mkRequest "GET" Examples.menu_api "")
        Examples.fresh_world).1 = Rejected reason) /\
  (exists reason,
     (cacheFirst Examples.broken
        (mkRequest "GET" "https://pizzaria.example/menu.html" "document")
        Examples.fresh_world).1 = Rejected reason).
Proof. vm_compute. split; [reflexivity|]. split; eexists; reflexivity. Qed.

(** ** Install *)

Lemma fetch_batch_fails (env : Env) (keys : list string) (k : string) :
  k ∈ keys -> fetch_fails env k -> fetch_batch env keys = None.
Proof.
  unfold fetch_fails. intros Hin Hk.
  induction Hin as [k keys | k k' keys Hin IH]; simpl.
  - destruct (net env k) as [r|]; [by rewrite Hk | done].
  - rewrite (IH Hk). destruct (net env k') as [r|]; [|done].
    by destruct (ok_status (status r)).
Qed.

Lemma issue_all_spec (keys : list string) (w : World) :
  issue_all keys w = (Fulfilled tt, mkWorld (storage w) (trace w ++ (EvFetch <$> keys))).
Proof.
  revert w. induction keys as [|k keys IH]; intros w; simpl.
  - rewrite app_nil_r. by destruct w.
  - unfold bind, fetch_issue, emit. simpl. rewrite IH. simpl.
    by rewrite <- app_assoc.
Qed.

Lemma fetches_issued (keys : list string) : fetches (EvFetch <$> keys) = length keys.
Proof.
  unfold fetches. induction keys as [|k keys IH]; [done|].
  rewrite fmap_cons. simpl. f_equal. exact IH.
Qed.

Lemma not_elem_of_issued (e : Event) (keys : list string) :
  is_fetch e = false -> e ∉ EvFetch <$> keys.
Proof.
  intros He (k & -> & _)%list_elem_of_fmap. discriminate He.
Qed.

(** C2 (as amended): when an asset of the manifest cannot be fetched,
    nothing is stored (every entry of every namespace is as it was), the
    failure is logged, [skipWaiting] is not called and no asset is requested
    twice; but the listener catches the failure, so the promise it gave to
    [event.waitUntil] fulfils: the installation itself succeeds, and the
    worker waits behind the previous version, or becomes active when there
    is none. *)
Theorem install_failure_is_swallowed (env : Env) (w : World) (u : string) :
  u ∈ STATIC_ASSETS ->
  fetch_fails env (resolve env u) ->
  (on_install env w).1 = Fulfilled tt /\
  (forall name k,
     lookup_in (storage (on_install env w).2) name k = lookup_in (storage w) name k) /\
  EvError "Failed to cache static assets:" ∈ added w (on_install env w).2 /\
  (EvSkipWaiting ∉ added w (on_install env w).2) /\
  (fetches (added w (on_install env w).2) ≤ length STATIC_ASSETS)%nat /\
  (EvSkipWaiting ∉ trace w ->
   forall previous,
     after_install previous (on_install env w)
     = if previous then Waiting else Active).
Proof.
  intros Hu Hfail.
  assert (fetch_batch env (map (resolve env) STATIC_ASSETS) = None) as Hbatch.
  { apply (fetch_batch_fails env _ (resolve env u)); [|done].
    apply list_elem_of_In, in_map, list_elem_of_In, Hu. }
  assert (exists t cs,
     on_install env w = (Fulfilled tt, mkWorld cs (trace w ++ t)) /\
     (forall name k, lookup_in cs name k = lookup_in (storage w) name k) /\
     EvError "Failed to cache static assets:" ∈ t /\
     (EvSkipWaiting ∉ t) /\
     (fetches t ≤ length STATIC_ASSETS)%nat) as (t & cs & Hrun & Hcs & Herr & Hskip & Hn).
  { unfold on_install, cache_addAll.
    assert (length (map (resolve env) STATIC_ASSETS) = length STATIC_ASSETS)
      as <- by apply length_map.
    set (keys := map (resolve env) STATIC_ASSETS) in *. clearbody keys. run.
    destruct (open_ok env STATIC_CACHE); simpl.
    - rewrite issue_all_spec. simpl. rewrite Hbatch. simpl.
      eexists _, _. split; [by rewrite <- !app_assoc|].
      split; [intros; apply lookup_in_ensure|].
      split; [rewrite !elem_of_app, !elem_of_cons; naive_solver|].
      split.
      + pose proof (not_elem_of_issued EvSkipWaiting keys eq_refl).
        rewrite !elem_of_app, !elem_of_cons, elem_of_nil. intuition discriminate.
      + rewrite !fetches_app, fetches_issued. unfold fetches. simpl. lia.
    - eexists _, _. split; [by rewrite <- !app_assoc|].
      split; [done|]. split; [in_list|]. split; [not_in_list|].
      trace_simpl. lia. }
  rewrite Hrun. simpl. rewrite (added_app w _ t) by done.
  repeat split; try done.
  intros Hw previous. unfold after_install, skip_requested. simpl.
  rewrite bool_decide_eq_false_2; [by destruct previous|].
  rewrite elem_of_app. tauto.
Qed.

Lemma install_failure_is_swallowed_witness :
  let env := Examples.serving_but "https://pizzaria.example/styles.css" in
  (on_install env Examples.fresh_world).1 = Fulfilled tt /\
  (EvSkipWaiting
     ∉ added Examples.fresh_world (on_install env Examples.fresh_world).2) /\
  after_install true (on_install env Examples.fresh_world) = Waiting.
Proof.
  intros env.
  destruct (install_failure_is_swallowed env Examples.fresh_world "/styles.css")
    as (Hp & _ & _ & Hskip & _ & Hlife);
    [unfold STATIC_ASSETS; in_list | exact I |].
  split; [exact Hp|]. split; [exact Hskip|].
  apply (Hlife (not_elem_of_nil _) true).
Defined.

(** When every asset is fetched and stored, [skipWaiting] is called, and
    the static namespace holds the manifest. *)
Lemma install_success (env : Env) (w : World) (rs : list (string * Response)) :
  open_ok env STATIC_CACHE = true ->
  fetch_batch env (map (resolve env) STATIC_ASSETS) = Some rs ->
  forallb (fun kr => put_ok env STATIC_CACHE kr.1 kr.2) rs = true ->
  on_install env w =
  (Fulfilled tt,
   mkWorld (put_all STATIC_CACHE rs (ensure STATIC_CACHE (storage w)))
     (trace w ++ [EvLog "Service Worker installing..."; EvOpen STATIC_CACHE;
                  EvLog "Caching static assets"; EvAddAll STATIC_CACHE] ++
      (EvFetch <$> map (resolve env) STATIC_ASSETS) ++ [EvSkipWaiting])).
Proof.
  intros Hopen Hbatch Hput. unfold on_install, cache_addAll, skipWaiting.
  set (keys := map (resolve env) STATIC_ASSETS) in *. clearbody keys. run.
  rewrite Hopen; simpl. rewrite issue_all_spec. simpl. rewrite Hbatch, Hput. simpl.
  by rewrite <- !app_assoc.
Qed.

(** C2 as stated fails: one asset of the manifest cannot be fetched, and
    the promise of the listener fulfils all the same, so that the browser
    installs the worker: it is not discarded, and with no previous version
    it becomes the active one. *)
Lemma install_failure_counterexample :
  let env := Examples.serving_but "https://pizzaria.example/styles.css" in
  fetch_fails env (resolve env "/styles.css") /\
  (on_install env Examples.fresh_world).1 = Fulfilled tt /\
  after_install true (on_install env Examples.fresh_world) ≠ Redundant /\
  after_install false (on_install env Examples.fresh_world) = Active.
Proof. vm_compute. repeat split. discriminate. Qed.

(** ** Activate *)

Lemma filter_ext_elem {A} (P Q : A -> Prop) `{!forall x, Decision (P x)}
    `{!forall x, Decision (Q x)} (l : list A) :
  (forall x, x ∈ l -> (P x <-> Q x)) -> filter P l = filter Q l.
Proof.
  induction l as [|a l IH]; intros Hext; [done|].
  rewrite !filter_cons.
  rewrite IH by (intros x Hx; apply Hext; by apply list_elem_of_further).
  apply decide_ext, Hext, list_elem_of_here.
Qed.

Lemma filter_all {A} (P : A -> Prop) `{!forall x, Decision (P x)} (l : list A) :
  (forall x, P x) -> filter P l = l.
Proof.
  intros HP. induction l as [|a l IH]; [done|]. by rewrite filter_cons_True, IH.
Qed.

Lemma delete_each_spec (names : list string) (w : World) :
  delete_each names w =
  (Fulfilled tt,
   mkWorld (filter (fun nc => nc.1 ∉ names) (storage w))
     (trace w ++ deletions names)).
Proof.
  revert w. induction names as [|n names IH]; intros [cs t]; simpl.
  - unfold ret, deletions. simpl. rewrite app_nil_r. f_equal. f_equal.
    symmetry. apply filter_all. intros x. apply not_elem_of_nil.
  - unfold bind, console_log, caches_delete, emit. simpl. rewrite IH. simpl.
    f_equal. f_equal.
    + rewrite list_filter_filter. apply list_filter_iff.
      intros x. rewrite not_elem_of_cons. tauto.
    + unfold deletions. simpl. by rewrite <- !app_assoc.
Qed.

Lemma elem_of_deletions (names : list string) (name : string) :
  EvDelete name ∈ deletions names <-> name ∈ names.
Proof.
  unfold deletions. rewrite list_elem_of_bind. split.
  - intros (n & Hin & Hn). rewrite !elem_of_cons, elem_of_nil in Hin.
    destruct Hin as [?|[[= ->]|[]]]; done.
  - intros Hn. exists name. split; [in_list | done].
Qed.

Lemma claim_not_in_deletions (names : list string) : EvClaim ∉ deletions names.
Proof.
  unfold deletions. rewrite list_elem_of_bind. intros (n & Hin & _).
  rewrite !elem_of_cons, elem_of_nil in Hin. destruct Hin as [?|[?|[]]]; done.
Qed.

Lemma lookup_in_kept (cs : list (string * gmap string Response)) (name k : string) :
  current name ->
  lookup_in (filter (fun nc => current nc.1) cs) name k = lookup_in cs name k.
Proof.
  intros Hcur. induction cs as [|[n c] cs IH]; [done|].
  rewrite filter_cons. simpl. destruct (decide (current n)) as [Hn|Hn]; simpl.
  - destruct (decide (n = name)); [done | exact IH].
  - destruct (decide (n = name)) as [->|]; [done | exact IH].
Qed.

(** C8: activation fulfils, keeps exactly the namespaces named by the two
    current identifiers, in their order and with their entries, deletes
    each of the others, and claims the clients after that. *)
Theorem activate_collects (w : World) :
  (on_activate w).1 = Fulfilled tt /\
  storage (on_activate w).2 = filter (fun nc => current nc.1) (storage w) /\
  (forall name,
     EvDelete name ∈ added w (on_activate w).2 <->
     name ∈ (storage w).*1 /\ ~ current name) /\
  (forall name k,
     current name ->
     lookup_in (storage (on_activate w).2) name k = lookup_in (storage w) name k) /\
  exists t, added w (on_activate w).2 = t ++ [EvClaim] /\ EvClaim ∉ t.
Proof.
  set (old := filter (fun cacheName => cacheName ≠ STATIC_CACHE ∧
                                       cacheName ≠ DYNAMIC_CACHE) (storage w).*1).
  assert (on_activate w =
          (Fulfilled tt,
           mkWorld (filter (fun nc => current nc.1) (storage w))
             (trace w ++ [EvLog "Service Worker activating..."; EvKeys] ++
              deletions old ++ [EvClaim]))) as Hrun.
  { unfold on_activate, bind, console_log, caches_keys, clients_claim, emit.
    simpl. fold old. rewrite delete_each_spec. simpl. f_equal. f_equal.
    - apply filter_ext_elem. intros [n c] Hin. simpl. unfold old, current.
      rewrite list_elem_of_filter.
      assert (n ∈ (storage w).*1)
        by (apply list_elem_of_fmap; by exists (n, c)).
      destruct (decide (n = STATIC_CACHE)), (decide (n = DYNAMIC_CACHE)); tauto.
    - by rewrite <- !app_assoc. }
  rewrite Hrun. simpl.
  rewrite (added_app w _ ([EvLog "Service Worker activating..."; EvKeys] ++
                          deletions old ++ [EvClaim])) by done.
  split; [done|]. split; [done|]. split; [|split].
  - intros name. rewrite !elem_of_app, !elem_of_cons, !elem_of_nil.
    rewrite elem_of_deletions. unfold old, current.
    rewrite list_elem_of_filter. intuition discriminate.
  - intros name k Hcur. by apply lookup_in_kept.
  - exists ([EvLog "Service Worker activating..."; EvKeys] ++ deletions old).
    split; [by rewrite <- !app_assoc|].
    pose proof (claim_not_in_deletions old).
    rewrite !elem_of_app, !elem_of_cons, elem_of_nil. intuition discriminate.
Qed.

(** ** The scenarios of the specification *)

(** Scenario A: an empty cache and a network that answers 200 with "HOME";
    the caller receives "HOME" and the dynamic namespace then holds it. *)
Example scenario_home_is_fetched_and_stored :
  let key := "https://pizzaria.example/index.html" in
  let home := Examples.response 200 "HOME" in
  let env := Examples.env_with (Examples.only key home) in
  let result := on_fetch env (mkRequest "GET" key "document") Examples.fresh_world in
  result.1 = Some (Fulfilled (VResponse home)) /\
  lookup_in (storage result.2) DYNAMIC_CACHE key = Some home.
Proof. vm_compute. by split. Qed.

(** Scenario C: a network-first URL, no network, nothing cached: the caller
    receives the offline response, status 503 and body "Offline". *)
Example scenario_network_first_offline :
  (on_fetch Examples.offline (mkRequest "GET" Examples.menu_api "")
     Examples.fresh_world).1 = Some (Fulfilled (VResponse offline_response)) /\
  status offline_response = 503 /\ body offline_response = "Offline".
Proof. vm_compute. by repeat split. Qed.

(** Activation on a storage that holds an older static namespace and a
    foreign one: both go, the two current namespaces stay, in their order
    and with their entries. *)
Example activate_keeps_current :
  let w := mkWorld [("static-v1.1", {[ Examples.styles_css := Examples.response 200 "old" ]});
                    (STATIC_CACHE, {[ Examples.styles_css := Examples.response 200 "new" ]});
                    ("pizzaria-miragem-v1.2", ∅);
                    (DYNAMIC_CACHE, ∅)] [] in
  storage (on_activate w).2
  = [(STATIC_CACHE, {[ Examples.styles_css := Examples.response 200 "new" ]});
     (DYNAMIC_CACHE, ∅)] /\
  trace (on_activate w).2
  = [EvLog "Service Worker activating..."; EvKeys;
     EvLog "Deleting old cache:"; EvDelete "static-v1.1";
     EvLog "Deleting old cache:"; EvDelete "pizzaria-miragem-v1.2"; EvClaim].
Proof. vm_compute. by split. Qed.

(** * Further properties of the handlers *)

(** ** How the executors run *)

Lemma lookup_all_None_not_shadowed (cs : list (string * gmap string Response))
    (name k : string) :
  lookup_all cs k = None -> shadowed cs name k = false.
Proof.
  induction cs as [|[n c] cs IH]; simpl; [done|].
  destruct (c !! k) eqn:Hc; [done|]. intros H.
  destruct (decide (n = name)); [done|]. simpl. by apply IH.
Qed.

Lemma lookup_in_lookup_all (cs : list (string * gmap string Response))
    (name k : string) (r : Response) :
  lookup_in cs name k = Some r -> is_Some (lookup_all cs k).
Proof.
  induction cs as [|[n c] cs IH]; simpl; [done|].
  destruct (c !! k) eqn:Hc; [by eexists|].
  destruct (decide (n = name)); [done|]. apply IH.
Qed.

Lemma shadowed_put_in (cs : list (string * gmap string Response))
    (name k : string) (r : Response) :
  shadowed (put_in name k r cs) name k = shadowed cs name k.
Proof.
  induction cs as [|[m c] cs IH]; simpl.
  - by rewrite decide_True.
  - destruct (decide (m = name)) as [->|Hne]; simpl.
    + by rewrite decide_True.
    + by rewrite decide_False, IH.
Qed.

Lemma cacheFirst_hit_run (env : Env) (request : Request) (w : World) (r : Response) :
  match_ok env (url request) = true ->
  lookup_all (storage w) (url request) = Some r ->
  cacheFirst env request w =
  (Fulfilled (VResponse r), mkWorld (storage w) (trace w ++ [EvMatch (url request)])).
Proof. intros Hm Hr. run. rewrite Hm; simpl. by rewrite Hr. Qed.

Lemma cacheFirst_store_run (env : Env) (request : Request) (w : World) (n : Response) :
  match_ok env (url request) = true ->
  lookup_all (storage w) (url request) = None ->
  net env (url request) = Some n ->
  status n = 200 ->
  open_ok env DYNAMIC_CACHE = true ->
  put_ok env DYNAMIC_CACHE (url request) n = true ->
  cacheFirst env request w =
  (Fulfilled (VResponse n),
   mkWorld (put_in DYNAMIC_CACHE (url request) n (ensure DYNAMIC_CACHE (storage w)))
     (trace w ++ [EvMatch (url request); EvFetch (url request);
                  EvOpen DYNAMIC_CACHE; EvPut DYNAMIC_CACHE (url request)])).
Proof.
  intros Hm Hmiss Hnet Hst Hopen Hput. run. rewrite Hm; simpl. rewrite Hmiss; simpl.
  rewrite Hnet; simpl. rewrite bool_decide_eq_true_2 by done. simpl.
  rewrite Hopen; simpl. rewrite Hput; simpl. by rewrite <- !app_assoc.
Qed.

Lemma networkFirst_store_run (env : Env) (request : Request) (w : World) (n : Response) :
  net env (url request) = Some n ->
  status n = 200 ->
  open_ok env DYNAMIC_CACHE = true ->
  put_ok env DYNAMIC_CACHE (url request) n = true ->
  networkFirst env request w =
  (Fulfilled (VResponse n),
   mkWorld (put_in DYNAMIC_CACHE (url request) n (ensure DYNAMIC_CACHE (storage w)))
     (trace w ++ [EvFetch (url request); EvOpen DYNAMIC_CACHE;
                  EvPut DYNAMIC_CACHE (url request)])).
Proof.
  intros Hnet Hst Hopen Hput. run. rewrite Hnet; simpl.
  rewrite bool_decide_eq_true_2 by done. simpl.
  rewrite Hopen; simpl. rewrite Hput; simpl. by rewrite <- !app_assoc.
Qed.

Lemma networkFirst_offline_run (env : Env) (request : Request) (w : World) :
  net env (url request) = None ->
  match_ok env (url request) = true ->
  networkFirst env request w =
  (Fulfilled (VResponse (default offline_response
                           (lookup_all (storage w) (url request)))),
   mkWorld (storage w)
     (trace w ++ [EvFetch (url request); EvError "Network-first strategy failed:";
                  EvMatch (url request)])).
Proof.
  intros Hnet Hm. run. rewrite Hnet; simpl. rewrite Hm; simpl.
  destruct (lookup_all (storage w) (url request)); simpl; by rewrite <- !app_assoc.
Qed.

Lemma swr_store_run (env : Env) (request : Request) (w : World) (n : Response) :
  open_ok env DYNAMIC_CACHE = true ->
  match_ok env (url request) = true ->
  net env (url request) = Some n ->
  status n = 200 ->
  put_ok env DYNAMIC_CACHE (url request) n = true ->
  staleWhileRevalidate env request w =
  (Fulfilled (or_else (lookup_all (storage w) (url request)) (VResponse n)),
   mkWorld (put_in DYNAMIC_CACHE (url request) n (ensure DYNAMIC_CACHE (storage w)))
     (trace w ++ [EvOpen DYNAMIC_CACHE; EvMatch (url request);
                  EvFetch (url request); EvPut DYNAMIC_CACHE (url request)])).
Proof.
  intros Hopen Hm Hnet Hst Hput. run. rewrite Hopen; simpl. rewrite Hm; simpl.
  rewrite Hnet; simpl. rewrite bool_decide_eq_true_2 by done. simpl.
  rewrite Hput; simpl. by rewrite lookup_all_ensure, <- !app_assoc.
Qed.

(** ** Cache-first, beyond the hit *)

(** X1: A miss that the network answers with 200 is fetched once and stored;
    the next request for the same URL is answered from the cache with the
    same response and without a fetch, whatever the network then does. *)
Theorem cacheFirst_miss_then_hit (env env' : Env) (request : Request)
    (w : World) (n : Response) :
  match_ok env (url request) = true ->
  lookup_all (storage w) (url request) = None ->
  net env (url request) = Some n ->
  status n = 200 ->
  open_ok env DYNAMIC_CACHE = true ->
  put_ok env DYNAMIC_CACHE (url request) n = true ->
  match_ok env' (url request) = true ->
  let first := cacheFirst env request w in
  let second := cacheFirst env' request first.2 in
  first.1 = Fulfilled (VResponse n) /\
  fetches (added w first.2) = 1%nat /\
  second.1 = Fulfilled (VResponse n) /\
  fetches (added first.2 second.2) = 0%nat /\
  storage second.2 = storage first.2.
Proof.
  intros Hm Hmiss Hnet Hst Hopen Hput Hm'. simpl.
  rewrite (cacheFirst_store_run env request w n) by done. simpl.
  erewrite (cacheFirst_hit_run env' request _ n); [|done|]; last first.
  { simpl. rewrite lookup_all_put_in, shadowed_ensure.
    by rewrite (lookup_all_None_not_shadowed _ _ _ Hmiss). }
  simpl. split; [done|]. split.
  { by erewrite added_app by done. }
  split; [done|]. split; [|done].
  by erewrite added_app by done.
Qed.

Lemma cacheFirst_miss_then_hit_witness :
  let request := mkRequest "GET" Examples.styles_css "style" in
  let css := Examples.response 200 "body{}" in
  let env := Examples.env_with (Examples.only Examples.styles_css css) in
  let first := cacheFirst env request Examples.fresh_world in
  (cacheFirst Examples.offline request first.2).1 = Fulfilled (VResponse css) /\
  fetches (added first.2 (cacheFirst Examples.offline request first.2).2) = 0%nat.
Proof.
  intros request css env first.
  destruct (cacheFirst_miss_then_hit env Examples.offline request
              Examples.fresh_world css) as (_ & _ & H2 & H3 & _);
    [reflexivity | reflexivity | reflexivity | reflexivity | reflexivity
    | reflexivity | reflexivity |].
  split; [exact H2 | exact H3].
Defined.

(** X2: A miss while the network is unreachable: one fetch is tried, the
    failure is logged, nothing is written, and the caller gets the synthetic
    503 response, or for a document the cached [/index.html] when the
    storage holds it. *)
Theorem cacheFirst_offline_fallback (env : Env) (request : Request) (w : World) :
  match_ok env (url request) = true ->
  lookup_all (storage w) (url request) = None ->
  net env (url request) = None ->
  storage (cacheFirst env request w).2 = storage w /\
  fetches (added w (cacheFirst env request w).2) = 1%nat /\
  EvError "Cache-first strategy failed:" ∈ added w (cacheFirst env request w).2 /\
  (destination request ≠ "document" ->
   (cacheFirst env request w).1 = Fulfilled (VResponse offline_response)) /\
  (forall page,
     destination request = "document" ->
     match_ok env (resolve env "/index.html") = true ->
     lookup_all (storage w) (resolve env "/index.html") = Some page ->
     (cacheFirst env request w).1 = Fulfilled (VResponse page)).
Proof.
  intros Hm Hmiss Hnet. run. rewrite Hm; simpl. rewrite Hmiss; simpl.
  rewrite Hnet; simpl.
  destruct (bool_decide_reflect (destination request = "document")) as [Hd|Hd]; simpl.
  - destruct (match_ok env (resolve env "/index.html")) eqn:Hidx; simpl.
    + split; [done|]. unfold added; simpl.
      rewrite <- !app_assoc, drop_app_length. simpl.
      split; [done|]. split; [in_list|]. split; [done|].
      intros page _ _ Hpage. by rewrite Hpage.
    + split; [done|]. unfold added; simpl.
      rewrite <- !app_assoc, drop_app_length. simpl.
      split; [done|]. split; [in_list|]. split; [done|]. by intros page _ ?.
  - split; [done|]. unfold added; simpl.
    rewrite <- !app_assoc, drop_app_length. simpl.
    split; [done|]. split; [in_list|]. split; [done|]. by intros page ?.
Qed.

Lemma cacheFirst_offline_fallback_witness :
  let home := Examples.response 200 "HOME" in
  let w := mkWorld [(STATIC_CACHE, {[ "https://pizzaria.example/index.html" := home ]})] [] in
  (cacheFirst Examples.offline
     (mkRequest "GET" "https://pizzaria.example/menu.html" "document") w).1
    = Fulfilled (VResponse home) /\
  (cacheFirst Examples.offline
     (mkRequest "GET" "https://pizzaria.example/logo.png" "image") w).1
    = Fulfilled (VResponse offline_response).
Proof.
  intros home w. split.
  - destruct (cacheFirst_offline_fallback Examples.offline
                (mkRequest "GET" "https://pizzaria.example/menu.html" "document") w)
      as (_ & _ & _ & _ & H); [reflexivity | reflexivity | reflexivity |].
    apply H; reflexivity.
  - destruct (cacheFirst_offline_fallback Examples.offline
                (mkRequest "GET" "https://pizzaria.example/logo.png" "image") w)
      as (_ & _ & _ & H & _); [reflexivity | reflexivity | reflexivity |].
    apply H. discriminate.
Defined.

(** ** Network-first, beyond the success *)

(** X3: When the fetch fails and the lookup answers, [networkFirst] returns the
    cached entry of the key if there is one and the synthetic 503 response
    otherwise; it has tried one fetch, logged the failure, and left the
    storage as it was. *)
Theorem networkFirst_offline_fallback (env : Env) (request : Request) (w : World) :
  net env (url request) = None ->
  match_ok env (url request) = true ->
  (networkFirst env request w).1 =
    Fulfilled (VResponse (default offline_response
                            (lookup_all (storage w) (url request)))) /\
  storage (networkFirst env request w).2 = storage w /\
  added w (networkFirst env request w).2 =
    [EvFetch (url request); EvError "Network-first strategy failed:";
     EvMatch (url request)].
Proof.
  intros Hnet Hm. rewrite (networkFirst_offline_run env request w) by done. simpl.
  split; [done|]. split; [done|]. by erewrite added_app by done.
Qed.

Lemma networkFirst_offline_fallback_witness :
  let request := mkRequest "GET" Examples.menu_api "" in
  let menu := Examples.response 200 "MENU" in
  let w := mkWorld [(DYNAMIC_CACHE, {[ Examples.menu_api := menu ]})] [] in
  (networkFirst Examples.offline request w).1 = Fulfilled (VResponse menu) /\
  (networkFirst Examples.offline request Examples.fresh_world).1
    = Fulfilled (VResponse offline_response).
Proof.
  intros request menu w. split.
  - apply (networkFirst_offline_fallback Examples.offline request w); reflexivity.
  - apply (networkFirst_offline_fallback Examples.offline request
             Examples.fresh_world); reflexivity.
Defined.

(** X4: Once a network-first request was answered with 200 and stored, a later
    request for the same URL made while the network is down is answered
    from the cache, not with the 503 response: with the stored response
    when no older namespace holds the URL. *)
Theorem networkFirst_online_then_offline (env env' : Env) (request : Request)
    (w : World) (n : Response) :
  net env (url request) = Some n ->
  status n = 200 ->
  open_ok env DYNAMIC_CACHE = true ->
  put_ok env DYNAMIC_CACHE (url request) n = true ->
  net env' (url request) = None ->
  match_ok env' (url request) = true ->
  let first := networkFirst env request w in
  let second := networkFirst env' request first.2 in
  (exists r, second.1 = Fulfilled (VResponse r) /\
             lookup_all (storage first.2) (url request) = Some r) /\
  (shadowed (storage w) DYNAMIC_CACHE (url request) = false ->
   second.1 = Fulfilled (VResponse n)) /\
  storage second.2 = storage first.2.
Proof.
  intros Hnet Hst Hopen Hput Hnet' Hm'. simpl.
  rewrite (networkFirst_store_run env request w n) by done. simpl.
  rewrite networkFirst_offline_run by done. simpl.
  rewrite lookup_all_put_in, shadowed_ensure, lookup_all_ensure.
  destruct (shadowed (storage w) DYNAMIC_CACHE (url request)) eqn:Hsh.
  - split; [|done].
    destruct (lookup_all (storage w) (url request)) as [r|] eqn:Hl.
    + by exists r.
    + by rewrite (lookup_all_None_not_shadowed _ _ _ Hl) in Hsh.
  - split; [by exists n | done].
Qed.

Lemma networkFirst_online_then_offline_witness :
  let request := mkRequest "GET" Examples.menu_api "" in
  let menu := Examples.response 200 "MENU" in
  let env := Examples.env_with (Examples.only Examples.menu_api menu) in
  (networkFirst Examples.offline request
     (networkFirst env request Examples.fresh_world).2).1
  = Fulfilled (VResponse menu).
Proof.
  intros request menu env.
  destruct (networkFirst_online_then_offline env Examples.offline request
              Examples.fresh_world menu) as (_ & H & _);
    [reflexivity | reflexivity | reflexivity | reflexivity | reflexivity
    | reflexivity |].
  apply H. reflexivity.
Defined.

(** ** Stale-while-revalidate, beyond the refresh *)

(** X5: The promise of [staleWhileRevalidate] never rejects, whatever the
    network and the storage do. *)
Theorem swr_never_rejects (env : Env) (request : Request) (w : World) :
  exists v, (staleWhileRevalidate env request w).1 = Fulfilled v.
Proof. run. paths env; eauto. Qed.

(** X6: When the cache storage cannot be opened, [staleWhileRevalidate] logs
    the failure and answers from the network alone: with the network
    response, or with a bare 503 response when the fetch fails too; nothing
    is looked up and nothing is written. *)
Theorem swr_storage_unavailable (env : Env) (request : Request) (w : World) :
  open_ok env DYNAMIC_CACHE = false ->
  (staleWhileRevalidate env request w).1 =
    Fulfilled (VResponse (default offline_response_swr (net env (url request)))) /\
  storage (staleWhileRevalidate env request w).2 = storage w /\
  added w (staleWhileRevalidate env request w).2 =
    [EvOpen DYNAMIC_CACHE; EvError "Stale-while-revalidate strategy failed:";
     EvFetch (url request)].
Proof.
  intros Hopen. run. rewrite Hopen; simpl.
  destruct (net env (url request)); simpl;
    (split; [done|]; split; [done|]);
    unfold added; simpl; by rewrite <- !app_assoc, drop_app_length.
Qed.

Lemma swr_storage_unavailable_witness :
  (staleWhileRevalidate Examples.broken
     (mkRequest "GET" Examples.font_css "style") Examples.fresh_world).1
  = Fulfilled (VResponse offline_response_swr).
Proof.
  apply (swr_storage_unavailable Examples.broken
           (mkRequest "GET" Examples.font_css "style") Examples.fresh_world).
  reflexivity.
Defined.

(** X7: The first request for a URL that no namespace holds waits for the
    network and stores the 200 response; the second request for it is
    answered at once with that response, while its own refresh replaces the
    entry by what the network serves then. *)
Theorem swr_second_request_sees_first (env env' : Env) (request : Request)
    (w : World) (n n' : Response) :
  open_ok env DYNAMIC_CACHE = true ->
  match_ok env (url request) = true ->
  lookup_all (storage w) (url request) = None ->
  net env (url request) = Some n ->
  status n = 200 ->
  put_ok env DYNAMIC_CACHE (url request) n = true ->
  open_ok env' DYNAMIC_CACHE = true ->
  match_ok env' (url request) = true ->
  net env' (url request) = Some n' ->
  status n' = 200 ->
  put_ok env' DYNAMIC_CACHE (url request) n' = true ->
  let first := staleWhileRevalidate env request w in
  let second := staleWhileRevalidate env' request first.2 in
  first.1 = Fulfilled (VResponse n) /\
  swr_immediate env request w = None /\
  swr_immediate env' request first.2 = Some (VResponse n) /\
  second.1 = Fulfilled (VResponse n) /\
  lookup_all (storage second.2) (url request) = Some n'.
Proof.
  intros Hopen Hm Hmiss Hnet Hst Hput Hopen' Hm' Hnet' Hst' Hput'. simpl.
  rewrite (swr_store_run env request w n) by done. simpl.
  assert (lookup_all (put_in DYNAMIC_CACHE (url request) n
                        (ensure DYNAMIC_CACHE (storage w))) (url request)
          = Some n) as Hstored.
  { rewrite lookup_all_put_in, shadowed_ensure.
    by rewrite (lookup_all_None_not_shadowed _ _ _ Hmiss). }
  assert (shadowed (put_in DYNAMIC_CACHE (url request) n
                      (ensure DYNAMIC_CACHE (storage w)))
            DYNAMIC_CACHE (url request) = false) as Hsh.
  { rewrite shadowed_put_in, shadowed_ensure.
    by apply lookup_all_None_not_shadowed. }
  rewrite (swr_store_run env' request _ n') by done. simpl.
  rewrite Hstored, Hmiss. simpl.
  split; [done|]. split.
  { unfold swr_immediate. run. rewrite Hopen; simpl. rewrite Hm; simpl.
    by rewrite lookup_all_ensure, Hmiss. }
  split.
  { unfold swr_immediate. run. rewrite Hopen'; simpl. rewrite Hm'; simpl.
    by rewrite lookup_all_ensure, Hstored. }
  split; [done|].
  by rewrite lookup_all_put_in, shadowed_ensure, Hsh.
Qed.

Lemma swr_second_request_sees_first_witness :
  let request := mkRequest "GET" Examples.font_css "style" in
  let env := Examples.env_with (Examples.only Examples.font_css
                                  (Examples.response 200 "v1")) in
  let env' := Examples.env_with (Examples.only Examples.font_css
                                   (Examples.response 200 "v2")) in
  let first := staleWhileRevalidate env request Examples.fresh_world in
  (staleWhileRevalidate env' request first.2).1
    = Fulfilled (VResponse (Examples.response 200 "v1")) /\
  lookup_all (storage (staleWhileRevalidate env' request first.2).2)
    Examples.font_css = Some (Examples.response 200 "v2").
Proof.
  intros request env env' first.
  destruct (swr_second_request_sees_first env env' request Examples.fresh_world
              (Examples.response 200 "v1") (Examples.response 200 "v2"))
    as (_ & _ & _ & H1 & H2);
    [reflexivity | reflexivity | reflexivity | reflexivity | reflexivity
    | reflexivity | reflexivity | reflexivity | reflexivity | reflexivity
    | reflexivity |].
  split; [exact H1 | exact H2].
Defined.

(** ** What every request leaves in place *)

(** X8: An executor touches one entry at most: that of the request's URL in
    the dynamic namespace. Every other entry of every namespace, those of
    the static namespace among them, is after the request what it was
    before; a request that is not intercepted changes nothing at all. *)
Theorem on_fetch_frame (env : Env) (request : Request) (w : World)
    (name k : string) :
  name ≠ DYNAMIC_CACHE \/ k ≠ url request ->
  lookup_in (storage (on_fetch env request w).2) name k
  = lookup_in (storage w) name k.
Proof.
  intros Hother. unfold on_fetch. destruct (route request) as [s|]; [|done].
  pose proof (execute_storage env s request w) as Hcs.
  destruct (execute env s request w) as [p w']. simpl in *.
  destruct Hcs as [-> | [-> | (n & _ & _ & ->)]].
  - done.
  - apply lookup_in_ensure.
  - rewrite lookup_in_put_in, lookup_in_ensure.
    case_decide as Hd; [|done]. destruct Hd, Hother; congruence.
Qed.

Lemma on_fetch_frame_witness :
  let home := Examples.response 200 "HOME" in
  let key := "https://pizzaria.example/index.html" in
  let w := mkWorld [(STATIC_CACHE, {[ key := home ]})] [] in
  lookup_in
    (storage (on_fetch (Examples.serving "NEW")
                (mkRequest "GET" Examples.menu_api "") w).2) STATIC_CACHE key
  = Some home.
Proof.
  intros home key w.
  rewrite (on_fetch_frame (Examples.serving "NEW")
             (mkRequest "GET" Examples.menu_api "") w STATIC_CACHE key).
  - reflexivity.
  - left. discriminate.
Defined.

(** X9: A request is fetched once at most, never retried, and nothing but the
    URL of the request is ever fetched. *)
Theorem on_fetch_fetches_once (env : Env) (request : Request) (w : World) :
  (fetches (added w (on_fetch env request w).2) ≤ 1)%nat /\
  forall u, EvFetch u ∈ added w (on_fetch env request w).2 -> u = url request.
Proof.
  unfold on_fetch. destruct (route request) as [s|]; simpl.
  - assert (exists t, trace (execute env s request w).2 = trace w ++ t /\
                      (fetches t ≤ 1)%nat /\
                      forall u, EvFetch u ∈ t -> u = url request)
      as (t & Ht & Hn & Hu).
    { destruct s; run; paths env; rewrite <- ?app_assoc; simpl;
        eexists; (split; [reflexivity|]); (split; [unfold fetches; simpl; lia|]);
        intros u Hin; rewrite ?elem_of_cons, elem_of_nil in Hin;
        intuition congruence. }
    destruct (execute env s request w) as [p w']. simpl in *.
    by rewrite (added_app w w' t Ht).
  - unfold added. rewrite drop_all. split; [unfold fetches; simpl; lia|].
    intros u Hin. by apply elem_of_nil in Hin.
Qed.

Lemma names_ensure (cs : list (string * gmap string Response)) (name : string) :
  (ensure name cs).*1 = cs.*1 ++ (if decide (name ∈ cs.*1) then [] else [name]).
Proof.
  induction cs as [|[m c] cs IH]; [done|].
  rewrite fmap_cons. simpl ensure. simpl fst.
  destruct (decide (m = name)) as [->|Hne].
  - rewrite decide_True by apply list_elem_of_here. by rewrite app_nil_r.
  - rewrite fmap_cons, IH. simpl. f_equal. f_equal.
    destruct (decide (name ∈ cs.*1)) as [Hin|Hin].
    + rewrite decide_True; [done|]. by apply list_elem_of_further.
    + rewrite decide_False; [done|]. rewrite not_elem_of_cons. by split.
Qed.

Lemma names_put_in (cs : list (string * gmap string Response)) (name k : string)
    (r : Response) :
  (put_in name k r cs).*1 = cs.*1 ++ (if decide (name ∈ cs.*1) then [] else [name]).
Proof.
  induction cs as [|[m c] cs IH]; [done|].
  rewrite fmap_cons. simpl put_in. simpl fst.
  destruct (decide (m = name)) as [->|Hne].
  - rewrite decide_True by apply list_elem_of_here. by rewrite app_nil_r.
  - rewrite fmap_cons, IH. simpl. f_equal. f_equal.
    destruct (decide (name ∈ cs.*1)) as [Hin|Hin].
    + rewrite decide_True; [done|]. by apply list_elem_of_further.
    + rewrite decide_False; [done|]. rewrite not_elem_of_cons. by split.
Qed.

Lemma NoDup_names_snoc (names : list string) (name : string) :
  NoDup names -> NoDup (names ++ (if decide (name ∈ names) then [] else [name])).
Proof.
  intros Hnd. destruct (decide (name ∈ names)) as [Hin|Hin].
  - by rewrite app_nil_r.
  - apply NoDup_app. split; [done|]. split.
    + intros x Hx Hx'. apply list_elem_of_singleton in Hx'. by subst.
    + apply NoDup_singleton.
Qed.

Lemma NoDup_names_put_all (name : string) (rs : list (string * Response))
    (cs : list (string * gmap string Response)) :
  NoDup cs.*1 -> NoDup (put_all name rs cs).*1.
Proof.
  revert cs. induction rs as [|[k r] rs IH]; intros cs Hnd; simpl; [done|].
  apply IH. rewrite names_put_in. by apply NoDup_names_snoc.
Qed.

(** X10: The storage never comes to hold two namespaces of one name: if the
    names are distinct before a request, an installation or an activation,
    they are distinct after it. *)
Theorem handlers_keep_names_distinct (env : Env) (request : Request) (w : World) :
  NoDup (storage w).*1 ->
  NoDup (storage (on_fetch env request w).2).*1 /\
  NoDup (storage (on_install env w).2).*1 /\
  NoDup (storage (on_activate w).2).*1.
Proof.
  intros Hnd. split; [|split].
  - unfold on_fetch. destruct (route request) as [s|]; [|done].
    pose proof (execute_storage env s request w) as Hcs.
    destruct (execute env s request w) as [p w']. simpl in *.
    destruct Hcs as [-> | [-> | (n & _ & _ & ->)]]; [done| |].
    + rewrite names_ensure. by apply NoDup_names_snoc.
    + rewrite names_put_in. apply NoDup_names_snoc.
      rewrite names_ensure. by apply NoDup_names_snoc.
  - unfold on_install, cache_addAll.
    set (keys := map (resolve env) STATIC_ASSETS). clearbody keys. run.
    destruct (open_ok env STATIC_CACHE); simpl; [|done].
    rewrite issue_all_spec. simpl.
    destruct (fetch_batch env keys) as [rs|]; simpl.
    + destruct (forallb _ rs); simpl.
      * apply NoDup_names_put_all. rewrite names_ensure.
        by apply NoDup_names_snoc.
      * rewrite names_ensure. by apply NoDup_names_snoc.
    + rewrite names_ensure. by apply NoDup_names_snoc.
  - unfold on_activate, bind, console_log, caches_keys, clients_claim, emit.
    simpl. rewrite delete_each_spec. simpl.
    eapply sublist_NoDup; [exact Hnd|].
    apply fmap_sublist, sublist_filter.
Qed.

Lemma handlers_keep_names_distinct_witness :
  let w := mkWorld [(STATIC_CACHE, ∅); ("static-v1.1", ∅)] [] in
  NoDup (storage (on_fetch (Examples.serving "x")
                    (mkRequest "GET" Examples.menu_api "") w).2).*1.
Proof.
  intros w.
  apply (handlers_keep_names_distinct (Examples.serving "x")
           (mkRequest "GET" Examples.menu_api "") w).
  apply (bool_decide_unpack _). vm_compute. exact I.
Defined.

(** ** Install, beyond the failure *)

Lemma fetch_batch_None (env : Env) (keys : list string) :
  fetch_batch env keys = None -> exists k, k ∈ keys /\ fetch_fails env k.
Proof.
  induction keys as [|k keys IH]; simpl; [done|].
  destruct (net env k) as [r|] eqn:Hk.
  - destruct (ok_status (status r)) eqn:Hok.
    + destruct (fetch_batch env keys); [done|]. intros _.
      destruct IH as (k' & Hin & Hf); [done|].
      exists k'. split; [by apply list_elem_of_further | done].
    + intros _. exists k. split; [apply list_elem_of_here|].
      unfold fetch_fails. by rewrite Hk.
  - intros _. exists k. split; [apply list_elem_of_here|].
    unfold fetch_fails. by rewrite Hk.
Qed.

Lemma fetch_batch_Some (env : Env) (keys : list string) (rs : list (string * Response)) :
  fetch_batch env keys = Some rs ->
  Forall2 (fun k kr => kr.1 = k /\ net env k = Some kr.2) keys rs.
Proof.
  revert rs. induction keys as [|k keys IH]; intros rs; simpl.
  - intros [= <-]. constructor.
  - destruct (net env k) as [r|] eqn:Hk; [|done].
    destruct (ok_status (status r)); [|done].
    destruct (fetch_batch env keys) as [rs'|]; [|done].
    intros [= <-]. constructor; [done | by apply IH].
Qed.

Lemma batch_accepted (env : Env) (name : string) (keys : list string)
    (rs : list (string * Response)) :
  Forall2 (fun k kr => kr.1 = k /\ net env k = Some kr.2) keys rs ->
  forallb (fun kr => put_ok env name kr.1 kr.2) rs = true <->
  forall k r, k ∈ keys -> net env k = Some r -> put_ok env name k r = true.
Proof.
  induction 1 as [|k [k' r'] keys rs [Hk Hn] Hrest IH]; simpl in *.
  - split; [intros _ k r Hin; by apply elem_of_nil in Hin | done].
  - subst k'. rewrite andb_true_iff, IH. split.
    + intros [Hput Hall] k0 r0 Hin Hr0. apply elem_of_cons in Hin as [->|Hin].
      * congruence.
      * by apply Hall.
    + intros Hall. split.
      * apply Hall; [apply list_elem_of_here | done].
      * intros k0 r0 Hin. apply Hall. by apply list_elem_of_further.
Qed.

Lemma lookup_in_put_all (env : Env) (name : string) (keys : list string)
    (rs : list (string * Response)) (cs : list (string * gmap string Response))
    (name' k' : string) :
  Forall2 (fun k kr => kr.1 = k /\ net env k = Some kr.2) keys rs ->
  lookup_in (put_all name rs cs) name' k' =
  if decide (name' = name /\ k' ∈ keys) then net env k' else lookup_in cs name' k'.
Proof.
  intros HF. revert cs.
  induction HF as [|k [k0 r] keys rs [Hk Hn] Hrest IH]; intros cs; simpl in *.
  - rewrite decide_False; [done|]. intros [_ Hin]. by apply elem_of_nil in Hin.
  - subst k0. rewrite IH, lookup_in_put_in.
    destruct (decide (name' = name /\ k' ∈ keys)) as [[-> Hin]|Hno].
    + rewrite decide_True; [done|]. split; [done | by apply list_elem_of_further].
    + destruct (decide (name' = name /\ k' = k)) as [[-> ->]|Hno'].
      * rewrite decide_True; [done|]. split; [done | apply list_elem_of_here].
      * rewrite decide_False; [done|]. rewrite elem_of_cons. tauto.
Qed.

Lemma elem_of_resolved (env : Env) (u : string) (urls : list string) :
  u ∈ urls -> resolve env u ∈ map (resolve env) urls.
Proof. intros Hu. apply list_elem_of_In, in_map, list_elem_of_In, Hu. Qed.

(** X11: The promise that the install listener hands to [event.waitUntil] never
    rejects; and [skipWaiting] is called exactly when the static namespace
    could be opened, every asset of the manifest was fetched with an ok
    status, and the storage accepted every one of them. *)
Theorem install_skips_waiting_iff (env : Env) (w : World) :
  (on_install env w).1 = Fulfilled tt /\
  (EvSkipWaiting ∈ added w (on_install env w).2 <->
   open_ok env STATIC_CACHE = true /\
   (forall u, u ∈ STATIC_ASSETS -> ~ fetch_fails env (resolve env u)) /\
   (forall u r, u ∈ STATIC_ASSETS -> net env (resolve env u) = Some r ->
                put_ok env STATIC_CACHE (resolve env u) r = true)).
Proof.
  assert ((forall u, u ∈ STATIC_ASSETS -> ~ fetch_fails env (resolve env u)) <->
          (forall k, k ∈ map (resolve env) STATIC_ASSETS -> ~ fetch_fails env k))
    as Hfetch.
  { split.
    - intros H k Hk. apply list_elem_of_In, in_map_iff in Hk as (u & <- & Hu).
      apply H. by apply list_elem_of_In.
    - intros H u Hu. by apply H, elem_of_resolved. }
  assert ((forall u r, u ∈ STATIC_ASSETS -> net env (resolve env u) = Some r ->
                       put_ok env STATIC_CACHE (resolve env u) r = true) <->
          (forall k r, k ∈ map (resolve env) STATIC_ASSETS -> net env k = Some r ->
                       put_ok env STATIC_CACHE k r = true)) as Hputs.
  { split.
    - intros H k r Hk. apply list_elem_of_In, in_map_iff in Hk as (u & <- & Hu).
      apply H. by apply list_elem_of_In.
    - intros H u r Hu. by apply H, elem_of_resolved. }
  rewrite Hfetch, Hputs. clear Hfetch Hputs.
  unfold on_install, cache_addAll, skipWaiting.
  set (keys := map (resolve env) STATIC_ASSETS). clearbody keys. run.
  pose proof (not_elem_of_issued EvSkipWaiting keys eq_refl) as Hissued.
  destruct (open_ok env STATIC_CACHE); simpl.
  - rewrite issue_all_spec. simpl.
    destruct (fetch_batch env keys) as [rs|] eqn:Hbatch; simpl.
    + pose proof (fetch_batch_Some _ _ _ Hbatch) as HF.
      pose proof (batch_accepted env STATIC_CACHE keys rs HF) as Hacc.
      assert (forall k, k ∈ keys -> ~ fetch_fails env k) as Hnofail.
      { intros k Hk Hf. by rewrite (fetch_batch_fails env keys k Hk Hf) in Hbatch. }
      destruct (forallb _ rs) eqn:Hall; simpl.
      * split; [done|]. unfold added; simpl.
        rewrite <- !app_assoc, drop_app_length. simpl.
        split; [intros _|intros _].
        -- split; [done|]. split; [done|]. by apply Hacc.
        -- rewrite !elem_of_cons, elem_of_app, !elem_of_cons. tauto.
      * split; [done|]. unfold added; simpl.
        rewrite <- !app_assoc, drop_app_length. simpl.
        rewrite !elem_of_cons, elem_of_app, !elem_of_cons, elem_of_nil.
        split; [intuition discriminate|].
        intros (_ & _ & Hput). apply Hacc in Hput. congruence.
    + split; [done|]. unfold added; simpl.
      rewrite <- !app_assoc, drop_app_length. simpl.
      rewrite !elem_of_cons, elem_of_app, !elem_of_cons, elem_of_nil.
      split; [intuition discriminate|].
      intros (_ & Hno & _). apply fetch_batch_None in Hbatch as (k & Hk & Hf).
      by destruct (Hno k Hk).
  - split; [done|]. unfold added; simpl.
    rewrite <- !app_assoc, drop_app_length. simpl.
    rewrite !elem_of_cons, elem_of_nil.
    split; [intuition discriminate | by intros [? _]].
Qed.

Lemma install_success_run (env : Env) (w : World) :
  open_ok env STATIC_CACHE = true ->
  (forall u, u ∈ STATIC_ASSETS -> ~ fetch_fails env (resolve env u)) ->
  (forall u r, u ∈ STATIC_ASSETS -> net env (resolve env u) = Some r ->
               put_ok env STATIC_CACHE (resolve env u) r = true) ->
  exists rs,
    Forall2 (fun k kr => kr.1 = k /\ net env k = Some kr.2)
      (map (resolve env) STATIC_ASSETS) rs /\
    on_install env w =
    (Fulfilled tt,
     mkWorld (put_all STATIC_CACHE rs (ensure STATIC_CACHE (storage w)))
       (trace w ++ [EvLog "Service Worker installing..."; EvOpen STATIC_CACHE;
                    EvLog "Caching static assets"; EvAddAll STATIC_CACHE] ++
        (EvFetch <$> map (resolve env) STATIC_ASSETS) ++ [EvSkipWaiting])).
Proof.
  intros Hopen Hfetch Hput.
  destruct (fetch_batch env (map (resolve env) STATIC_ASSETS)) as [rs|] eqn:Hbatch.
  - pose proof (fetch_batch_Some _ _ _ Hbatch) as HF.
    exists rs. split; [done|]. apply install_success; [done | done |].
    apply (batch_accepted env STATIC_CACHE _ rs HF).
    intros k r Hk. apply list_elem_of_In, in_map_iff in Hk as (u & <- & Hu).
    apply Hput. by apply list_elem_of_In.
  - apply fetch_batch_None in Hbatch as (k & Hk & Hf).
    apply list_elem_of_In, in_map_iff in Hk as (u & <- & Hu).
    destruct (Hfetch u); [by apply list_elem_of_In | done].
Qed.

(** X12: A successful installation leaves every asset of the manifest in the
    static namespace, under its URL resolved against the origin, with the
    response the network gave for it, whatever the namespace held before;
    the entries of the other namespaces are untouched, and the worker does
    not wait to become active. *)
Theorem install_caches_manifest (env : Env) (w : World) :
  open_ok env STATIC_CACHE = true ->
  (forall u, u ∈ STATIC_ASSETS -> ~ fetch_fails env (resolve env u)) ->
  (forall u r, u ∈ STATIC_ASSETS -> net env (resolve env u) = Some r ->
               put_ok env STATIC_CACHE (resolve env u) r = true) ->
  (forall u, u ∈ STATIC_ASSETS ->
     is_Some (net env (resolve env u)) /\
     lookup_in (storage (on_install env w).2) STATIC_CACHE (resolve env u)
     = net env (resolve env u)) /\
  (forall name k, name ≠ STATIC_CACHE ->
     lookup_in (storage (on_install env w).2) name k = lookup_in (storage w) name k) /\
  (fetches (added w (on_install env w).2) = length STATIC_ASSETS) /\
  forall previous, after_install previous (on_install env w) = Active.
Proof.
  intros Hopen Hfetch Hput.
  destruct (install_success_run env w Hopen Hfetch Hput) as (rs & HF & ->). simpl.
  split; [|split; [|split]].
  - intros u Hu. split.
    + specialize (Hfetch u Hu). unfold fetch_fails in Hfetch.
      destruct (net env (resolve env u)); [by eexists | by destruct Hfetch].
    + rewrite (lookup_in_put_all env _ _ rs _ _ _ HF).
      rewrite decide_True; [done|]. split; [done | by apply elem_of_resolved].
  - intros name k Hname. rewrite (lookup_in_put_all env _ _ rs _ _ _ HF).
    rewrite decide_False by (intros [? _]; done). apply lookup_in_ensure.
  - erewrite added_app by done. reflexivity.
  - intros previous. unfold after_install, skip_requested. simpl.
    rewrite bool_decide_eq_true_2; [done|].
    rewrite elem_of_app. right. in_list.
Qed.

Lemma install_caches_manifest_witness :
  lookup_in (storage (on_install (Examples.serving "v1") Examples.fresh_world).2)
    STATIC_CACHE "https://pizzaria.example/index.html"
  = Some (Examples.response 200 "v1").
Proof.
  destruct (install_caches_manifest (Examples.serving "v1") Examples.fresh_world)
    as (H & _); [reflexivity | intros u _ Hf; discriminate Hf | reflexivity |].
  destruct (H "/index.html") as [_ Hl]; [unfold STATIC_ASSETS; in_list|].
  exact Hl.
Defined.

(** ** Activate, and the life of the cached assets *)

Lemma on_activate_run (w : World) :
  on_activate w =
  (Fulfilled tt,
   mkWorld (filter (fun nc => current nc.1) (storage w))
     (trace w ++ [EvLog "Service Worker activating..."; EvKeys] ++
      deletions (filter (fun cacheName => cacheName ≠ STATIC_CACHE ∧
                                          cacheName ≠ DYNAMIC_CACHE)
                   (storage w).*1) ++ [EvClaim])).
Proof.
  unfold on_activate, bind, console_log, caches_keys, clients_claim, emit.
  simpl. rewrite delete_each_spec. simpl. f_equal. f_equal.
  - apply filter_ext_elem. intros [n c] Hin. simpl. unfold current.
    rewrite list_elem_of_filter.
    assert (n ∈ (storage w).*1) by (apply list_elem_of_fmap; by exists (n, c)).
    destruct (decide (n = STATIC_CACHE)), (decide (n = DYNAMIC_CACHE)); tauto.
  - by rewrite <- !app_assoc.
Qed.

Lemma no_obsolete_among_kept (cs : list (string * gmap string Response)) :
  filter (fun cacheName => cacheName ≠ STATIC_CACHE ∧ cacheName ≠ DYNAMIC_CACHE)
    (filter (fun nc => current nc.1) cs).*1 = [].
Proof.
  induction cs as [|[n c] cs IH]; [done|].
  rewrite filter_cons. destruct (decide (current (n, c).1)) as [Hc|Hc]; [|done].
  rewrite fmap_cons, filter_cons_False; [done|].
  simpl in *. unfold current in Hc. tauto.
Qed.

(** X13: Activating twice is activating once: the second activation finds
    nothing to delete, asks for no deletion, and leaves the storage of the
    first. *)
Theorem activate_idempotent (w : World) :
  let w1 := (on_activate w).2 in
  storage (on_activate w1).2 = storage w1 /\
  added w1 (on_activate w1).2 =
    [EvLog "Service Worker activating..."; EvKeys; EvClaim].
Proof.
  simpl. rewrite (on_activate_run w). simpl. rewrite on_activate_run. simpl.
  rewrite no_obsolete_among_kept. split.
  - rewrite list_filter_filter. apply list_filter_iff. tauto.
  - unfold added. simpl. by rewrite drop_app_length.
Qed.

Lemma lookup_in_absent (cs : list (string * gmap string Response)) (name k : string) :
  name ∉ cs.*1 -> lookup_in cs name k = None.
Proof.
  induction cs as [|[n c] cs IH]; [done|].
  rewrite fmap_cons, not_elem_of_cons. simpl. intros [Hne Hin].
  rewrite decide_False by done. by apply IH.
Qed.

Lemma lookup_all_kept (cs : list (string * gmap string Response)) (k : string)
    (r : Response) :
  NoDup cs.*1 ->
  lookup_in cs DYNAMIC_CACHE k = None ->
  lookup_in cs STATIC_CACHE k = Some r ->
  lookup_all (filter (fun nc => current nc.1) cs) k = Some r.
Proof.
  induction cs as [|[n c] cs IH]; [done|].
  rewrite fmap_cons, NoDup_cons, filter_cons. simpl.
  intros [Hn Hnd] Hdyn Hsta.
  destruct (decide (n = STATIC_CACHE)) as [->|Hns].
  - rewrite decide_True by (by left). simpl. by rewrite Hsta.
  - destruct (decide (n = DYNAMIC_CACHE)) as [->|Hnd'].
    + rewrite decide_True by (by right). simpl. rewrite Hdyn.
      apply IH; [done | by apply lookup_in_absent | done].
    + rewrite decide_False by (unfold current; tauto). by apply IH.
Qed.

(** X14: The assets that a successful installation cached survive the
    activation and make the site available offline: a cache-first request
    for any URL of the manifest is answered with a response and without a
    fetch, whatever the network then does; with the installed response
    itself when the dynamic namespace does not hold the URL. *)
Theorem installed_assets_served_offline (env env' : Env) (w : World)
    (u : string) (request : Request) :
  open_ok env STATIC_CACHE = true ->
  (forall u, u ∈ STATIC_ASSETS -> ~ fetch_fails env (resolve env u)) ->
  (forall u r, u ∈ STATIC_ASSETS -> net env (resolve env u) = Some r ->
               put_ok env STATIC_CACHE (resolve env u) r = true) ->
  u ∈ STATIC_ASSETS ->
  url request = resolve env u ->
  match_ok env' (url request) = true ->
  let w2 := (on_activate (on_install env w).2).2 in
  (exists r, (cacheFirst env' request w2).1 = Fulfilled (VResponse r)) /\
  fetches (added w2 (cacheFirst env' request w2).2) = 0%nat /\
  (forall r,
     NoDup (storage w).*1 ->
     lookup_in (storage w) DYNAMIC_CACHE (url request) = None ->
     net env (url request) = Some r ->
     (cacheFirst env' request w2).1 = Fulfilled (VResponse r)).
Proof.
  intros Hopen Hfetch Hput Hu Hurl Hm'.
  destruct (install_success_run env w Hopen Hfetch Hput) as (rs & HF & ->). simpl.
  rewrite on_activate_run. simpl.
  set (cs1 := put_all STATIC_CACHE rs (ensure STATIC_CACHE (storage w))).
  match goal with |- context [cacheFirst env' request ?W] => set (w2 := W) end.
  assert (exists r0, net env (url request) = Some r0) as [r0 Hr0].
  { specialize (Hfetch u Hu). unfold fetch_fails in Hfetch. rewrite Hurl.
    destruct (net env (resolve env u)); [by eexists | by destruct Hfetch]. }
  assert (lookup_in cs1 STATIC_CACHE (url request) = Some r0) as Hsta.
  { unfold cs1. rewrite (lookup_in_put_all env _ _ rs _ _ _ HF).
    rewrite decide_True; [done|]. split; [done|]. rewrite Hurl.
    by apply elem_of_resolved. }
  assert (lookup_in (filter (fun nc => current nc.1) cs1) STATIC_CACHE (url request)
          = Some r0) as Hkept.
  { rewrite lookup_in_kept; [done | by left]. }
  destruct (lookup_in_lookup_all _ _ _ _ Hkept) as [r Hr].
  rewrite (cacheFirst_hit_run env' request w2 r Hm' Hr). simpl.
  split; [by exists r|]. split.
  { by erewrite added_app by done. }
  intros r' Hnd Hdyn Hr'. assert (r' = r0) as -> by congruence.
  assert (lookup_all (filter (fun nc => current nc.1) cs1) (url request) = Some r0)
    as Hall.
  { apply lookup_all_kept; [| |done].
    - unfold cs1. apply NoDup_names_put_all. rewrite names_ensure.
      by apply NoDup_names_snoc.
    - unfold cs1. rewrite (lookup_in_put_all env _ _ rs _ _ _ HF).
      rewrite decide_False by (intros [? _]; done).
      by rewrite lookup_in_ensure. }
  simpl in Hr. congruence.
Qed.

Lemma installed_assets_served_offline_witness :
  let request := mkRequest "GET" "https://pizzaria.example/styles.css" "style" in
  let w2 := (on_activate (on_install (Examples.serving "v1")
                            Examples.fresh_world).2).2 in
  (cacheFirst Examples.offline request w2).1
    = Fulfilled (VResponse (Examples.response 200 "v1")) /\
  fetches (added w2 (cacheFirst Examples.offline request w2).2) = 0%nat.
Proof.
  intros request w2.
  destruct (installed_assets_served_offline (Examples.serving "v1")
              Examples.offline Examples.fresh_world "/styles.css" request)
    as (_ & Hn & Hr);
    [reflexivity | intros u _ Hf; discriminate Hf | reflexivity
    | unfold STATIC_ASSETS; in_list | reflexivity | reflexivity |].
  split; [|exact Hn].
  apply Hr; [apply NoDup_nil_2 | reflexivity | reflexivity].
Defined.

(** ** The background listeners *)

(** X16: A push event shows one notification at most, and shows one exactly
    when the permission is granted and the message parses to something
    other than [null]; a message that does not parse, or parses to [null],
    makes the listener throw, which the error listener logs; a push without
    a message does nothing. Every notification shown carries the worker's
    icon and badge. *)
Theorem push_shows_notification_iff (permission : bool) (message : PushMessage)
    (w : World) :
  let shown := (on_push permission message w).1.2 in
  ((exists n, shown = [UiShow n]) <->
   permission = true /\ exists d, message = Parsed d /\ d ≠ DataNull) /\
  (shown = [] \/ exists n, shown = [UiShow n] /\
                           n_icon n = "/images/icon-192.png" /\
                           n_badge n = "/images/badge-72.png") /\
  (EvError "Service Worker error:" ∈ added w (on_push permission message w).2 <->
   message = Unparsable \/ message = Parsed DataNull) /\
  (message = NoMessage -> on_push permission message w = (None, [], w)).
Proof.
  assert (added w w = []) as Hsame by (unfold added; by rewrite drop_all).
  assert (added w (uncaught w) = [EvError "Service Worker error:"]) as Hlog.
  { unfold added, uncaught, console_error, emit. simpl.
    by rewrite drop_app_length. }
  destruct message as [| |[| |fields]], permission; simpl;
    rewrite ?Hsame, ?Hlog.
  all: split; [split; [intros [n Hn]; try discriminate Hn
                      | intros (Hp & d & Hd & Hnull); try discriminate;
                        try (injection Hd as <-; done)]
              | split; [| split; [split; [intros Hin | intros [H|H]]
                                 | try done]]].
  all: try (by apply elem_of_nil in Hin).
  all: try discriminate.
  all: try (apply list_elem_of_here).
  all: try (left; reflexivity).
  all: try (right; eexists; split; [reflexivity | by split]).
  all: try (split; [done|]; eexists; split; [reflexivity | discriminate]).
  all: try by eauto.
Qed.

(** X17: The notification that a push shows carries the URL of the payload: a
    click on it closes it and then opens a window at that URL, when the URL
    is truthy; when the payload has no URL, or an empty one, the click only
    closes the notification. *)
Theorem push_then_click (permission : bool) (d : Data) (fields : gmap string Js)
    (w : World) (n : Notification) :
  payload_fields d = Some fields ->
  UiShow n ∈ (on_push permission (Parsed d) w).1.2 ->
  on_notificationclick n =
  UiClose n :: if truthy (get fields "url")
               then [UiOpenWindow (get fields "url")] else [].
Proof.
  intros Hd. unfold on_push. rewrite Hd. destruct permission; simpl.
  - intros Hin. apply list_elem_of_singleton in Hin. injection Hin as ->.
    unfold on_notificationclick. simpl.
    assert (get {[ "url" := get fields "url" ]} "url" = get fields "url") as ->.
    { unfold get at 1. by rewrite lookup_singleton_eq. }
    done.
  - intros Hin. by apply elem_of_nil in Hin.
Qed.

Lemma push_then_click_witness :
  let payload : gmap string Js :=
    {[ "title" := JsString "Promo"; "body" := JsString "2 por 1";
       "url" := JsString "/promo" ]} in
  let n := mkNotification (JsString "Promo") (JsString "2 por 1")
             "/images/icon-192.png" "/images/badge-72.png"
             (DataObject {[ "url" := JsString "/promo" ]}) in
  on_notificationclick n = [UiClose n; UiOpenWindow (JsString "/promo")].
Proof.
  intros payload n.
  apply (push_then_click true (DataObject payload) payload Examples.fresh_world n).
  - reflexivity.
  - vm_compute. apply list_elem_of_here.
Defined.

(** ** Where a response is guaranteed *)

(** X18: A cache-first request that is not for a document always gets a
    response: whatever fails, network or storage, the promise fulfils, with
    the cached entry, the network response or the synthetic 503 response. *)
Theorem cacheFirst_non_document_answers (env : Env) (request : Request)
    (w : World) :
  destination request ≠ "document" ->
  exists r, (cacheFirst env request w).1 = Fulfilled (VResponse r) /\
            (lookup_all (storage w) (url request) = Some r \/
             net env (url request) = Some r \/
             r = offline_response).
Proof.
  intros Hd. run. rewrite (bool_decide_eq_false_2 _ Hd).
  destruct (match_ok env (url request)); simpl; [|eauto].
  destruct (lookup_all (storage w) (url request)) as [c|]; simpl; [eauto|].
  destruct (net env (url request)) as [n|]; simpl; [|eauto].
  paths env; eauto.
Qed.

Lemma cacheFirst_non_document_answers_witness :
  exists r, (cacheFirst Examples.broken
               (mkRequest "GET" "https://pizzaria.example/logo.png" "image")
               Examples.fresh_world).1 = Fulfilled (VResponse r).
Proof.
  destruct (cacheFirst_non_document_answers Examples.broken
              (mkRequest "GET" "https://pizzaria.example/logo.png" "image")
              Examples.fresh_world) as (r & Hr & _); [discriminate|].
  by exists r.
Defined.

(** X19: A network-first request gets a response whenever the lookup of its key
    works, whatever the network does and whether or not the write is
    accepted: the network response, the cached entry, or the synthetic 503
    response. *)
Theorem networkFirst_answers (env : Env) (request : Request) (w : World) :
  match_ok env (url request) = true ->
  exists r, (networkFirst env request w).1 = Fulfilled (VResponse r) /\
            (net env (url request) = Some r \/
             lookup_all (storage w) (url request) = Some r \/
             r = offline_response).
Proof.
  intros Hm. run. rewrite !Hm.
  destruct (net env (url request)) as [n|]; simpl.
  - case_bool_decide; simpl; [|eauto].
    destruct (open_ok env DYNAMIC_CACHE); simpl.
    + destruct (put_ok env DYNAMIC_CACHE (url request) n); simpl; [eauto|].
      rewrite lookup_all_ensure.
      destruct (lookup_all (storage w) (url request)); simpl; eauto.
    + destruct (lookup_all (storage w) (url request)); simpl; eauto.
  - destruct (lookup_all (storage w) (url request)); simpl; eauto.
Qed.

Lemma networkFirst_answers_witness :
  exists r, (networkFirst Examples.offline (mkRequest "GET" Examples.menu_api "")
               Examples.fresh_world).1 = Fulfilled (VResponse r).
Proof.
  destruct (networkFirst_answers Examples.offline
              (mkRequest "GET" Examples.menu_api "") Examples.fresh_world)
    as (r & Hr & _); [reflexivity|].
  by exists r.
Defined.
